(** * Spark-NLP Python glue: the OCR proxy and the spell-checker script

    Two independent pieces of Python are embedded here.

    - [Ocr] follows [python/sparknlp/ocr.py]: the classes [OcrHelper] and
      [Coordinate], which delegate to objects living in a JVM through the
      py4j bridge.  Python objects live in a heap (they are shared and
      mutable), the JVM is an unknown state transformer that answers a
      call with a value or with a Java exception, and every call that
      crosses the bridge is recorded.
    - [SpellChecker] follows [python/tensorflow/spellchecker/run.py]: a
      top-to-bottom script over a file system and the TensorFlow engine,
      whose calls are recorded as a trace. *)

From Stdlib Require Import ZArith QArith Ascii String.
From stdpp Require Import base option list strings gmap.

Local Open Scope string_scope.
Local Open Scope list_scope.
Local Open Scope nat_scope.

(** ** Python values shared by both parts *)

(** Addresses of Python objects and py4j object ids. *)
Definition loc := nat.
Definition jref := nat.

(** A class is known by its qualified name and its base (single
    inheritance is all the program uses).  [type(x) != C] compares class
    objects, here class values. *)
Inductive pyclass : Type :=
| ClsObject
| ClsSub (name : string) (base : pyclass).

Global Instance pyclass_eq_dec : EqDecision pyclass.
Proof. solve_decision. Defined.

(** [issubclass c d]: [d] occurs on the chain of bases starting at [c]. *)
Fixpoint issubclass (c d : pyclass) : bool :=
  if decide (c = d) then true
  else match c with
       | ClsObject => false
       | ClsSub _ base => issubclass base d
       end.

#[warnings="-register-all"]
Inductive pyval : Type :=
| PyNone
| PyBool (b : bool)
| PyInt (n : Z)
| PyFloat (q : Q)            (* a numeric literal; never computed with *)
| PyStr (s : string)
| PyList (items : list pyval)
| PyJava (h : jref)           (* py4j JavaObject *)
| PyRef (l : loc).            (* instance of a Python class *)

Inductive pyexn : Type :=
| Exception (msg : string)
| TypeError (msg : string)
| AttributeError (attr : string)
| IOError (path : string)
| Py4JJavaError (payload : string).

Inductive outcome (A : Type) : Type :=
| Returned (a : A)
| Raised (e : pyexn).
Arguments Returned {A} a.
Arguments Raised {A} e.

Definition is_raised {A} (r : outcome A) : Prop :=
  match r with Raised _ => True | Returned _ => False end.

(** ** Statements that change a state and may raise

    A computation over a state [S] ends by returning a value or by
    raising; either way it leaves a state behind.  An exception that is
    raised skips the rest of the computation (nothing in the two files
    catches one). *)
Definition prog (S A : Type) : Type := S → outcome A * S.

Definition ret {S A} (a : A) : prog S A := λ s, (Returned a, s).
Definition raise {S A} (e : pyexn) : prog S A := λ s, (Raised e, s).
Definition bind {S A B} (m : prog S A) (k : A → prog S B) : prog S B :=
  λ s, match m s with
       | (Returned a, s') => k a s'
       | (Raised e, s') => (Raised e, s')
       end.

Notation "x <- m ;; k" := (bind m (λ x, k))
  (at level 100, m at next level, right associativity).
Notation "m ;;; k" := (bind m (λ _, k))
  (at level 100, right associativity).

(** ** The OCR proxy *)

Module Ocr.

(** The classes of [ocr.py] and of the libraries it imports. *)
Definition JavaWrapper : pyclass := ClsSub "pyspark.ml.wrapper.JavaWrapper" ClsObject.
Definition ExtendedJavaWrapper : pyclass :=
  ClsSub "sparknlp.internal.ExtendedJavaWrapper" JavaWrapper.
Definition OcrHelper : pyclass := ClsSub "sparknlp.ocr.OcrHelper" ExtendedJavaWrapper.
Definition Coordinate : pyclass := ClsSub "sparknlp.ocr.Coordinate" ExtendedJavaWrapper.
Definition SparkSession : pyclass := ClsSub "pyspark.sql.session.SparkSession" ClsObject.
Definition DataFrame : pyclass := ClsSub "pyspark.sql.dataframe.DataFrame" ClsObject.

(** Classes of the values that are not instances on the heap. *)
Definition builtin (name : string) : pyclass := ClsSub name ClsObject.

Record pyobject : Type := PyObject {
  ob_type : pyclass;
  ob_dict : gmap string pyval
}.

(** What goes over the bridge: a constructor call by JVM class name, or a
    method call on a JVM object. *)
Inductive jcall : Type :=
| JNew (java_class : string) (args : list pyval)
| JInvoke (target : jref) (method : string) (args : list pyval).

(** What comes back: the value the JVM code returned, or the Java
    exception it threw. *)
Inductive janswer : Type :=
| JReturn (v : pyval)
| JThrow (java_exception : string).

(** The JVM side is opaque: some state, and an answer to every call. *)
Class Gateway : Type := {
  jstate : Type;
  remote : jcall → jstate → janswer * jstate
}.

(** py4j hands a returned value to the caller and raises a thrown Java
    exception as [Py4JJavaError]. *)
Definition py4j_result (a : janswer) : outcome pyval :=
  match a with
  | JReturn v => Returned v
  | JThrow x => Raised (Py4JJavaError x)
  end.

(** The JVM code returned. *)
Definition answers (a : janswer) : Prop :=
  match a with JReturn _ => True | JThrow _ => False end.

Section Bridge.
Context `{Gateway}.

Record world : Type := World {
  heap : list pyobject;
  jvm : jstate;
  calls : list jcall          (* bridge calls made so far, oldest first *)
}.

(** Python code of this module: it reads and writes the world and may
    raise. *)
Definition py (A : Type) : Type := prog world A.

(** *** Primitives *)

(** [object.__new__(cls)]: a fresh instance with an empty [__dict__]. *)
Definition alloc (cls : pyclass) : py loc :=
  λ w, (Returned (length (heap w)),
        World (heap w ++ [PyObject cls ∅]) (jvm w) (calls w)).

(** [obj.name = v] *)
Definition setattr (obj : pyval) (name : string) (v : pyval) : py unit :=
  λ w, match obj with
       | PyRef l =>
           match heap w !! l with
           | Some o =>
               (Returned (),
                World (<[l := PyObject (ob_type o) (<[name := v]> (ob_dict o))]> (heap w))
                      (jvm w) (calls w))
           | None => (Raised (AttributeError name), w)
           end
       | _ => (Raised (AttributeError name), w)
       end.

(** Reading [obj.name] in a given world. *)
Definition attr (w : world) (obj : pyval) (name : string) : option pyval :=
  match obj with
  | PyRef l => o ← heap w !! l; ob_dict o !! name
  | _ => None
  end.

Definition getattr (obj : pyval) (name : string) : py pyval :=
  λ w, match attr w obj name with
       | Some v => (Returned v, w)
       | None => (Raised (AttributeError name), w)
       end.

(** [type(v)] *)
Definition typeof (w : world) (v : pyval) : pyclass :=
  match v with
  | PyNone => builtin "NoneType"
  | PyBool _ => ClsSub "bool" (builtin "int")
  | PyInt _ => builtin "int"
  | PyFloat _ => builtin "float"
  | PyStr _ => builtin "str"
  | PyList _ => builtin "list"
  | PyJava _ => builtin "py4j.java_gateway.JavaObject"
  | PyRef l => match heap w !! l with
               | Some o => ob_type o
               | None => ClsObject
               end
  end.

Definition type (v : pyval) : py pyclass := λ w, (Returned (typeof w v), w).

(** One call over the bridge: logged, answered by the JVM. *)
Definition bridge (c : jcall) : py pyval :=
  λ w, let '(a, j) := remote c (jvm w) in
       (py4j_result a, World (heap w) j (calls w ++ [c])).

(** [target.method], where [target] must be a py4j handle: the method
    to call, nothing is sent yet. *)
Definition jmember (target : pyval) (method : string) : py (jref * string) :=
  match target with
  | PyJava h => ret (h, method)
  | _ => raise (AttributeError method)
  end.

(** Calling it with the evaluated arguments. *)
Definition japply (f : jref * string) (args : list pyval) : py pyval :=
  bridge (JInvoke f.1 f.2 args).

(** [target.method(args)] when evaluating the arguments has no effect. *)
Definition jinvoke (target : pyval) (method : string) (args : list pyval) : py pyval :=
  f <- jmember target method;; japply f args.

(** Iterating a Python value, as [map] does. *)
Definition iter_values (v : pyval) : py (list pyval) :=
  match v with
  | PyList items => ret items
  | PyStr s => ret ((λ c, PyStr (String c EmptyString)) <$> String.list_ascii_of_string s)
  | _ => raise (TypeError "object is not iterable")
  end.

Fixpoint map_py {A B} (f : A → py B) (xs : list A) : py (list B) :=
  match xs with
  | [] => ret []
  | x :: xs' => y <- f x;; ys <- map_py f xs';; ret (y :: ys)
  end.

(** *** The imported constructors *)

(** Modelled from the spec: the base class [ExtendedJavaWrapper] comes
    from [sparknlp.internal], which [ocr.py] imports and whose source is
    not at hand.  Its constructor binds the proxy to a remote-side class
    name: it asks the JVM for an instance of [java_class] built from
    [args] and keeps the handle, which the classes of [ocr.py] read back
    as [_java_obj] and as [java_obj]. *)
Definition ExtendedJavaWrapper_init (self : pyval) (java_class : string)
    (args : list pyval) : py unit :=
  jobj <- bridge (JNew java_class args);;
  setattr self "_java_obj" jobj;;;
  setattr self "java_obj" jobj.

(** Modelled from the spec: [pyspark.sql.DataFrame] is imported.  Its
    constructor pairs a remote table handle with the session that
    produced it. *)
Definition DataFrame_new (jdf sql_ctx : pyval) : py pyval :=
  l <- alloc DataFrame;;
  setattr (PyRef l) "_jdf" jdf;;;
  setattr (PyRef l) "sql_ctx" sql_ctx;;;
  ret (PyRef l).

(** *** class OcrHelper *)

Definition OcrHelper_init (self : pyval) : py unit :=
  ExtendedJavaWrapper_init self "com.johnsnowlabs.nlp.util.io.OcrHelper" [].

Definition OcrHelper_new : py pyval :=
  l <- alloc OcrHelper;;
  OcrHelper_init (PyRef l);;;
  ret (PyRef l).

Definition createDataset (self spark input_path : pyval) : py pyval :=
  t <- type spark;;
  if decide (t ≠ SparkSession) then
    raise (Exception "spark must be SparkSession")
  else
    jobj <- getattr self "_java_obj";;
    f <- jmember jobj "createDataset";;
    jsess <- getattr spark "_jsparkSession";;
    jdf <- japply f [jsess; input_path];;
    DataFrame_new jdf spark.

Definition createMap (self input_path : pyval) : py pyval :=
  jobj <- getattr self "_java_obj";; jinvoke jobj "createMap" [input_path].

Definition setPreferredMethod (self value : pyval) : py pyval :=
  jobj <- getattr self "_java_obj";; jinvoke jobj "setPreferredMethod" [value].

Definition getPreferredMethod (self : pyval) : py pyval :=
  jobj <- getattr self "_java_obj";; jinvoke jobj "getPreferredMethod" [].

Definition setFallbackMethod (self value : pyval) : py pyval :=
  jobj <- getattr self "_java_obj";; jinvoke jobj "setFallbackMethod" [value].

Definition getFallbackMethod (self : pyval) : py pyval :=
  jobj <- getattr self "_java_obj";; jinvoke jobj "getFallbackMethod" [].

Definition setMinSizeBeforeFallback (self value : pyval) : py pyval :=
  jobj <- getattr self "_java_obj";; jinvoke jobj "setMinSizeBeforeFallback" [value].

Definition getMinSizeBeforeFallback (self : pyval) : py pyval :=
  jobj <- getattr self "_java_obj";; jinvoke jobj "getMinSizeBeforeFallback" [].

Definition setEngineMode (self mode : pyval) : py pyval :=
  jobj <- getattr self "_java_obj";; jinvoke jobj "setEngineMode" [mode].

Definition getEngineMode (self : pyval) : py pyval :=
  jobj <- getattr self "_java_obj";; jinvoke jobj "getEngineMode" [].

Definition setPageSegMode (self mode : pyval) : py pyval :=
  jobj <- getattr self "_java_obj";; jinvoke jobj "setPageSegMode" [mode].

Definition getPageSegMode (self : pyval) : py pyval :=
  jobj <- getattr self "_java_obj";; jinvoke jobj "getPageSegMode" [].

Definition setPageIteratorLevel (self level : pyval) : py pyval :=
  jobj <- getattr self "_java_obj";; jinvoke jobj "setPageIteratorLevel" [level].

Definition getPageIteratorLevel (self : pyval) : py pyval :=
  jobj <- getattr self "_java_obj";; jinvoke jobj "getPageIteratorLevel" [].

Definition setScalingFactor (self factor : pyval) : py pyval :=
  jobj <- getattr self "_java_obj";; jinvoke jobj "setScalingFactor" [factor].

Definition setSplitPages (self value : pyval) : py pyval :=
  jobj <- getattr self "_java_obj";; jinvoke jobj "setSplitPages" [value].

Definition getSplitPages (self : pyval) : py pyval :=
  jobj <- getattr self "_java_obj";; jinvoke jobj "getSplitPages" [].

Definition setSplitRegions (self value : pyval) : py pyval :=
  jobj <- getattr self "_java_obj";; jinvoke jobj "setSplitRegions" [value].

Definition getSplitRegions (self : pyval) : py pyval :=
  jobj <- getattr self "_java_obj";; jinvoke jobj "getSplitRegions" [].

(** [def useErosion(self, use, k_size=2, k_shape=0)]: the defaults are
    filled in by [bind_positional] below. *)
Definition useErosion (self use k_size k_shape : pyval) : py pyval :=
  jobj <- getattr self "_java_obj";; jinvoke jobj "useErosion" [use; k_size; k_shape].

Definition drawRectangle (self spark path coordinates : pyval) : py pyval :=
  jcoords <- (cs <- iter_values coordinates;;
              map_py (λ c, getattr c "java_obj") cs);;
  jobj <- getattr self "_java_obj";;
  f <- jmember jobj "drawRectangle";;
  jsess <- getattr spark "_jsparkSession";;
  japply f [jsess; path; PyList jcoords].

(** *** class Coordinate *)

Definition Coordinate_init (self i p x y w h : pyval) : py unit :=
  ExtendedJavaWrapper_init self "com.johnsnowlabs.nlp.util.io.schema.Coordinate"
    [i; p; x; y; w; h];;;
  setattr self "i" i;;;
  setattr self "p" p;;;
  setattr self "x" x;;;
  setattr self "y" y;;;
  setattr self "w" w;;;
  setattr self "h" h.

Definition Coordinate_new (i p x y w h : pyval) : py pyval :=
  l <- alloc Coordinate;;
  Coordinate_init (PyRef l) i p x y w h;;;
  ret (PyRef l).

(** *** Calling a proxy method with a positional argument list *)

(** The pass-through methods of [OcrHelper]. *)
Inductive proxy_method : Type :=
| CreateMap
| SetPreferredMethod | GetPreferredMethod
| SetFallbackMethod | GetFallbackMethod
| SetMinSizeBeforeFallback | GetMinSizeBeforeFallback
| SetEngineMode | GetEngineMode
| SetPageSegMode | GetPageSegMode
| SetPageIteratorLevel | GetPageIteratorLevel
| SetScalingFactor
| SetSplitPages | GetSplitPages
| SetSplitRegions | GetSplitRegions
| UseErosion.

Definition method_name (m : proxy_method) : string :=
  match m with
  | CreateMap => "createMap"
  | SetPreferredMethod => "setPreferredMethod"
  | GetPreferredMethod => "getPreferredMethod"
  | SetFallbackMethod => "setFallbackMethod"
  | GetFallbackMethod => "getFallbackMethod"
  | SetMinSizeBeforeFallback => "setMinSizeBeforeFallback"
  | GetMinSizeBeforeFallback => "getMinSizeBeforeFallback"
  | SetEngineMode => "setEngineMode"
  | GetEngineMode => "getEngineMode"
  | SetPageSegMode => "setPageSegMode"
  | GetPageSegMode => "getPageSegMode"
  | SetPageIteratorLevel => "setPageIteratorLevel"
  | GetPageIteratorLevel => "getPageIteratorLevel"
  | SetScalingFactor => "setScalingFactor"
  | SetSplitPages => "setSplitPages"
  | GetSplitPages => "getSplitPages"
  | SetSplitRegions => "setSplitRegions"
  | GetSplitRegions => "getSplitRegions"
  | UseErosion => "useErosion"
  end.

(** Number of parameters after [self] that have no default. *)
Definition required (m : proxy_method) : nat :=
  match m with
  | GetPreferredMethod | GetFallbackMethod | GetMinSizeBeforeFallback
  | GetEngineMode | GetPageSegMode | GetPageIteratorLevel
  | GetSplitPages | GetSplitRegions => 0
  | _ => 1
  end.

(** Default values of the remaining parameters, in order. *)
Definition defaults (m : proxy_method) : list pyval :=
  match m with
  | UseErosion => [PyInt 2; PyInt 0]
  | _ => []
  end.

(** Python's binding of positional arguments: too few or too many are
    refused, missing trailing ones take their defaults. *)
Definition bind_positional (required : nat) (defaults args : list pyval)
    : option (list pyval) :=
  let n := length args in
  if (required <=? n) && (n <=? required + length defaults)
  then Some (args ++ drop (n - required) defaults)
  else None.

Definition call (m : proxy_method) (self : pyval) (args : list pyval) : py pyval :=
  match bind_positional (required m) (defaults m) args with
  | None => raise (TypeError (method_name m))
  | Some params =>
      match m, params with
      | CreateMap, [input_path] => createMap self input_path
      | SetPreferredMethod, [value] => setPreferredMethod self value
      | GetPreferredMethod, [] => getPreferredMethod self
      | SetFallbackMethod, [value] => setFallbackMethod self value
      | GetFallbackMethod, [] => getFallbackMethod self
      | SetMinSizeBeforeFallback, [value] => setMinSizeBeforeFallback self value
      | GetMinSizeBeforeFallback, [] => getMinSizeBeforeFallback self
      | SetEngineMode, [mode] => setEngineMode self mode
      | GetEngineMode, [] => getEngineMode self
      | SetPageSegMode, [mode] => setPageSegMode self mode
      | GetPageSegMode, [] => getPageSegMode self
      | SetPageIteratorLevel, [level] => setPageIteratorLevel self level
      | GetPageIteratorLevel, [] => getPageIteratorLevel self
      | SetScalingFactor, [factor] => setScalingFactor self factor
      | SetSplitPages, [value] => setSplitPages self value
      | GetSplitPages, [] => getSplitPages self
      | SetSplitRegions, [value] => setSplitRegions self value
      | GetSplitRegions, [] => getSplitRegions self
      | UseErosion, [use; k_size; k_shape] => useErosion self use k_size k_shape
      | _, _ => raise (TypeError (method_name m))
      end
  end.

(** *** The operations of the module *)

Inductive operation : Type :=
| NewOcrHelper
| NewCoordinate (i p x y w h : pyval)
| CallCreateDataset (self spark input_path : pyval)
| CallDrawRectangle (self spark path coordinates : pyval)
| CallProxy (m : proxy_method) (self : pyval) (args : list pyval).

Definition exec (op : operation) : py pyval :=
  match op with
  | NewOcrHelper => OcrHelper_new
  | NewCoordinate i p x y w h => Coordinate_new i p x y w h
  | CallCreateDataset self spark input_path => createDataset self spark input_path
  | CallDrawRectangle self spark path coordinates =>
      drawRectangle self spark path coordinates
  | CallProxy m self args => call m self args
  end.

(** A client running operations one after the other, whatever each one
    returns or raises. *)
Definition exec_all (ops : list operation) (w : world) : world :=
  foldl (λ w op, (exec op w).2) w ops.

(** *** Vocabulary of the statements *)

Definition wrong_session_error : pyexn := Exception "spark must be SparkSession".

(** A [SparkSession] instance carries the handle of its JVM session
    (pyspark's constructor sets it). *)
Definition session_wf (w : world) (spark : pyval) : Prop :=
  typeof w spark = SparkSession → is_Some (attr w spark "_jsparkSession").

(** [c] is a subclass of [d] other than [d] itself. *)
Definition proper_subclass (c d : pyclass) : Prop :=
  issubclass c d = true ∧ c ≠ d.

(** The instance [DataFrame(jdf, spark)]. *)
Definition dataframe_object (jdf spark : pyval) : pyobject :=
  PyObject DataFrame (<["sql_ctx" := spark]> (<["_jdf" := jdf]> ∅)).

(** The result of sending [c] over the bridge from [w]: the JVM's answer,
    untouched, and the world with the call recorded. *)
Definition forwarded (c : jcall) (w : world) : outcome pyval * world :=
  (py4j_result (remote c (jvm w)).1,
   World (heap w) (remote c (jvm w)).2 (calls w ++ [c])).

(** The claim as the specification words it: the remote object receives
    the caller's argument list itself. *)
Definition forwards_exactly (m : proxy_method) (self : pyval) (args : list pyval)
    (w : world) : Prop :=
  ∃ h, attr w self "_java_obj" = Some (PyJava h)
       ∧ call m self args w = forwarded (JInvoke h (method_name m) args) w.

Definition helper_object (jobj : pyval) : pyobject :=
  PyObject OcrHelper (<["java_obj" := jobj]> (<["_java_obj" := jobj]> ∅)).

Definition coordinate_object (jobj i p x y w h : pyval) : pyobject :=
  PyObject Coordinate
    (<["h" := h]> (<["w" := w]> (<["y" := y]> (<["x" := x]> (<["p" := p]> (<["i" := i]>
       (<["java_obj" := jobj]> (<["_java_obj" := jobj]> ∅)))))))).

Definition new_Coordinate_call (i p x y w h : pyval) : jcall :=
  JNew "com.johnsnowlabs.nlp.util.io.schema.Coordinate" [i; p; x; y; w; h].

(** A computation that leaves the existing objects alone and at most
    adds new ones. *)
Definition grows {A} (m : py A) : Prop :=
  ∀ w, ∃ objs, heap (m w).2 = heap w ++ objs.

(** [spark] is a session object whose JVM session is [js]. *)
Definition is_session (w : world) (spark js : pyval) : Prop :=
  typeof w spark = SparkSession ∧ attr w spark "_jsparkSession" = Some js.

(** [c] is a [Coordinate] whose remote handle is [jc]. *)
Definition is_coordinate (w : world) (c jc : pyval) : Prop :=
  typeof w c = Coordinate ∧ attr w c "java_obj" = Some jc.

(** [c] answers [c.java_obj] with [jc] (whatever the class of [c]). *)
Definition has_java_obj (w : world) (c jc : pyval) : Prop :=
  attr w c "java_obj" = Some jc.


(** [op] is a call of a pass-through method on [self] that its signature
    accepts, and [c] is the remote call it stands for when the remote
    object of [self] is [h]. *)
Definition proxy_call_of (self : pyval) (h : jref) (op : operation) (c : jcall) : Prop :=
  ∃ m args params,
    op = CallProxy m self args
    ∧ bind_positional (required m) (defaults m) args = Some params
    ∧ c = JInvoke h (method_name m) params.

(** The JVM states a list of calls leads through, starting from [j]. *)
Definition jvm_after (cs : list jcall) (j : jstate) : jstate :=
  foldl (λ j c, (remote c j).2) j cs.

End Bridge.

(** *** Sample gateways and worlds *)

(** A JVM that answers every call with a fresh object handle. *)
Definition counting_jvm : Gateway :=
  {| jstate := nat; remote := λ _ j, (JReturn (PyJava j), S j) |}.

(** A JVM on which every call faults. *)
Definition faulting_jvm : Gateway :=
  {| jstate := unit; remote := λ _ j, (JThrow "java.io.IOException", j) |}.

Definition a_helper : pyobject :=
  PyObject OcrHelper {[ "_java_obj" := PyJava 0; "java_obj" := PyJava 0 ]}.

Definition a_session : pyobject :=
  PyObject SparkSession {[ "_jsparkSession" := PyJava 1 ]}.

(** A user-defined subclass of [SparkSession] and one of its instances. *)
Definition MySession : pyclass := ClsSub "app.MySession" SparkSession.

Definition a_subclass_session : pyobject :=
  PyObject MySession {[ "_jsparkSession" := PyJava 2 ]}.

(** Heap: helper at 0, session at 1, subclass session at 2. *)
Definition sample_world `{Gateway} (j : jstate) : world :=
  World [a_helper; a_session; a_subclass_session] j [].

(** A client that builds two coordinates, then draws them and changes
    settings of the helper. *)
Definition two_coordinates : list operation :=
  [ NewCoordinate (PyInt 0) (PyInt 1) (PyInt 10) (PyInt 20) (PyInt 300) (PyInt 40);
    NewCoordinate (PyInt 1) (PyInt 1) (PyInt 15) (PyInt 80) (PyInt 120) (PyInt 40) ].

Definition later_operations : list operation :=
  [ CallDrawRectangle (PyRef 0) (PyRef 1) (PyStr "/scans/a.pdf") (PyList [PyRef 3; PyRef 4]);
    CallProxy SetScalingFactor (PyRef 0) [PyInt 2];
    NewCoordinate (PyInt 9) (PyInt 9) (PyInt 9) (PyInt 9) (PyInt 9) (PyInt 9);
    CallCreateDataset (PyRef 0) (PyRef 1) (PyStr "/scans");
    CallProxy UseErosion (PyRef 3) [PyBool true] ].

End Ocr.

(** ** The spell-checker script *)

Module SpellChecker.

(** What the script asks of the TensorFlow engine and of the [RNNLM]
    class, in the order it asks.  What the engine does with a request is
    its own business; the script is followed along the runs in which the
    engine returns.  Numbers written with a decimal point in the source
    are kept as the rationals they denote. *)
Inductive event : Type :=
| SetEnv (name value : string)
| GPUOptions (per_process_gpu_memory_fraction : Q)
| SessionEnter (log_device_placement : bool)
| SessionExit
| NewRNNLM (vocab_size batch_size num_epochs check_point_step
            num_train_samples num_valid_samples num_layers num_hidden_units : Z)
           (initial_learning_rate final_learning_rate max_gradient_norm : Q)
| RunGlobalVariablesInitializer
| LoadClasses (path : string)
| LoadVocab (path : string)
| NewSaver
| BatchTrain (train_ids valid_ids : string)
| ResetDefaultGraph
| Restore (save_path : string)
| Save (name : string)
| Predict (sentences : list string).

(** The files on disk, by path, and the trace so far (oldest first). *)
Record state : Type := State {
  files : gmap string string;
  trace : list event
}.

Definition script (A : Type) : Type := prog state A.

Definition emit (e : event) : script unit :=
  λ s, (Returned (), State (files s) (trace s ++ [e])).

(** [open(path)]: the text of the file, as the text layer hands it over
    (lines end with the newline character); a missing file raises. *)
Definition open (path : string) : script string :=
  λ s, match files s !! path with
       | Some content => (Returned content, s)
       | None => (Raised (IOError path), s)
       end.

Definition newline : ascii := "010"%char.

(** [fp.readlines()]: the lines of the text, each with its newline; a
    last line without newline counts when it is not empty.  [line] is the
    part of the current line read so far. *)
Fixpoint readlines_from (line : string) (text : string) : list string :=
  match text with
  | EmptyString =>
      match line with
      | EmptyString => []
      | _ => [line]
      end
  | String c rest =>
      if Ascii.eqb c newline
      then (line +:+ String c EmptyString) :: readlines_from EmptyString rest
      else readlines_from (line +:+ String c EmptyString) rest
  end.

Definition readlines (text : string) : list string :=
  readlines_from EmptyString text.

(** The number of lines of a text, said without reading it line by line:
    one per newline, and one more for a last line left without newline. *)
Fixpoint count_newlines (text : string) : nat :=
  match text with
  | EmptyString => 0
  | String c rest => (if Ascii.eqb c newline then 1 else 0) + count_newlines rest
  end.

Fixpoint last_char (text : string) : option ascii :=
  match text with
  | EmptyString => None
  | String c rest =>
      match last_char rest with
      | Some c' => Some c'
      | None => Some c
      end
  end.

Definition line_count (text : string) : nat :=
  count_newlines text
  + match last_char text with
    | Some c => if Ascii.eqb c newline then 0 else 1
    | None => 0
    end.

(** *** Module-level constants *)

Definition TRAIN : bool := false.
Definition VERBOSE : bool := true.

Definition data_path : string := "/home/jose/spark-nlp-models/data/".

Definition model_name : string := "gutenberg_65".
Definition train_file : string := model_name +:+ ".txt.ids".
Definition classes_file : string := model_name +:+ ".txt.classes".
Definition vocab_file : string := model_name +:+ ".txt.vocab".
Definition valid_file : string := "valid.ids".

Definition model_path : string :=
  "/home/jose/spark-nlp-old/python/sparknlp/spellchecker/model/best_model.ckpt".

Definition vocab_path : string := data_path +:+ vocab_file.

(** [len(xs)], a Python integer. *)
Definition len {A} (xs : list A) : Z := Z.of_nat (length xs).

(** The three sizes the script derives from the files. *)
Record sizes : Type := Sizes {
  num_train_samples : Z;
  num_valid_samples : Z;
  vocab_size : Z
}.

Definition read_sizes : script sizes :=
  fp <- open (data_path +:+ train_file);;
  let num_train_samples := len (readlines fp) in
  fp <- open (data_path +:+ valid_file);;
  let num_valid_samples := len (readlines fp) in
  vocab <- open vocab_path;;
  let vocab_size := len (readlines vocab) in
  ret (Sizes num_train_samples num_valid_samples vocab_size).

Definition test_sentences : list string * list string :=
  let sentences := [ "she came to me in an unexpected gesture";
                     "she came to me in an unexpected day";
                     "she came to me in an unexpected car";
                     "she came to me in an unexpected morning";
                     "she came to me in an unexpected way";
                     "she came to me in an unexpected dream" ] in
  let candidates := [ "gesture"; "day"; "car"; "morning"; "way"; "dream" ] in
  (sentences, candidates).

Definition create_model (g : sizes) : script unit :=
  emit (NewRNNLM (vocab_size g) 2 5 20000 (num_train_samples g) (num_valid_samples g)
          1 300 0.7%Q 0.0005%Q 5.0%Q)%Z;;;
  emit RunGlobalVariablesInitializer.

(** The [if TRAIN:] block. *)
Definition train_block (g : sizes) : script unit :=
  emit (GPUOptions 0.99%Q);;;
  emit (SessionEnter true);;;
  create_model g;;;
  emit (LoadClasses (data_path +:+ classes_file));;;
  emit (LoadVocab vocab_path);;;
  let train_ids := data_path +:+ train_file in
  let valid_ids := data_path +:+ valid_file in
  emit NewSaver;;;
  emit (BatchTrain train_ids valid_ids);;;
  emit SessionExit.

(** The statements after it, at the top level of the module. *)
Definition restore_block (g : sizes) : script unit :=
  emit ResetDefaultGraph;;;
  emit (GPUOptions 0.99%Q);;;
  emit (SessionEnter false);;;
  create_model g;;;
  emit (LoadClasses (data_path +:+ classes_file));;;
  emit (LoadVocab vocab_path);;;
  emit NewSaver;;;
  emit (Restore model_path);;;
  emit (Save "bundle");;;
  let '(sents, cands) := test_sentences in
  emit (Predict sents);;;
  emit SessionExit.

(** The module body, for a given value of the flag [TRAIN]. *)
Definition run (TRAIN : bool) : script unit :=
  emit (SetEnv "TF_CPP_MIN_LOG_LEVEL" "3");;;
  g <- read_sizes;;
  (if TRAIN then train_block g else ret ());;;
  restore_block g.

(** The script as it is checked in. *)
Definition main : script unit := run TRAIN.

(** A run starts with nothing asked of the engine yet. *)
Definition start (fs : gmap string string) : state := State fs [].

(** *** Reading a trace *)

Definition is_training (e : event) : bool :=
  match e with BatchTrain _ _ => true | _ => false end.

Definition is_restore (e : event) : bool :=
  match e with Restore _ => true | _ => false end.

Definition is_predict (e : event) : bool :=
  match e with Predict _ => true | _ => false end.

(** The training loop ran. *)
Definition trains (tr : list event) : bool := existsb is_training tr.

(** A checkpoint was restored and predictions were run. *)
Definition restores_and_infers (tr : list event) : bool :=
  existsb is_restore tr && existsb is_predict tr.

(** *** Vocabulary of the statements *)

(** The data files the script opens are on the disk. *)
Definition data_files (fs : gmap string string) (train valid vocab : string) : Prop :=
  fs !! (data_path +:+ train_file) = Some train
  ∧ fs !! (data_path +:+ valid_file) = Some valid
  ∧ fs !! vocab_path = Some vocab.

Definition sizes_of (train valid vocab : string) : sizes :=
  Sizes (Z.of_nat (line_count train)) (Z.of_nat (line_count valid))
        (Z.of_nat (line_count vocab)).

Definition create_model_events (g : sizes) : list event :=
  [ NewRNNLM (vocab_size g) 2 5 20000 (num_train_samples g) (num_valid_samples g)
      1 300 0.7%Q 0.0005%Q 5.0%Q;
    RunGlobalVariablesInitializer ]%Z.

Definition train_events (g : sizes) : list event :=
  [ GPUOptions 0.99%Q; SessionEnter true ] ++ create_model_events g
  ++ [ LoadClasses (data_path +:+ classes_file); LoadVocab vocab_path; NewSaver;
       BatchTrain (data_path +:+ train_file) (data_path +:+ valid_file);
       SessionExit ].

Definition restore_events (g : sizes) : list event :=
  [ ResetDefaultGraph; GPUOptions 0.99%Q; SessionEnter false ] ++ create_model_events g
  ++ [ LoadClasses (data_path +:+ classes_file); LoadVocab vocab_path; NewSaver;
       Restore model_path; Save "bundle"; Predict test_sentences.1; SessionExit ].

(** The claim C1 as the specification words it: a run does not both
    train and restore-and-infer. *)
Definition mutually_exclusive (tr : list event) : Prop :=
  ¬ (trains tr = true ∧ restores_and_infers tr = true).

Definition is_new_model (e : event) : bool :=
  match e with NewRNNLM _ _ _ _ _ _ _ _ _ _ _ => true | _ => false end.

(** The model the script builds from texts of the three files: sizes from
    the line counts, the rest as written in [create_model]. *)
Definition model_of (train valid vocab : string) : event :=
  NewRNNLM (Z.of_nat (line_count vocab)) 2 5 20000
    (Z.of_nat (line_count train)) (Z.of_nat (line_count valid))
    1 300 0.7%Q 0.0005%Q 5.0%Q.

(** Reading a trace against the [with tf.Session(...)] blocks: sessions
    open only outside a session and close only inside one; the
    environment, the GPU options and the graph reset are touched outside;
    everything about a model happens inside; the trace ends outside.
    [inside] tells whether a session is open. *)
Fixpoint sessions_ok (inside : bool) (tr : list event) : bool :=
  match tr with
  | [] => negb inside
  | SessionEnter _ :: tr' => negb inside && sessions_ok true tr'
  | SessionExit :: tr' => inside && sessions_ok false tr'
  | SetEnv _ _ :: tr' | GPUOptions _ :: tr' | ResetDefaultGraph :: tr' =>
      negb inside && sessions_ok inside tr'
  | _ :: tr' => inside && sessions_ok inside tr'
  end.

(** *** A sample disk *)

Definition sample_files : gmap string string :=
  {[ data_path +:+ train_file := "12 7 3" +:+ String newline ("4 4" +:+ String newline "");
     data_path +:+ valid_file := "9 1" +:+ String newline "";
     vocab_path := "she" +:+ String newline ("came" +:+ String newline "to") ]}.


(** Disks on which a data file is missing. *)
Definition no_files : gmap string string := ∅.

Definition only_train_file : gmap string string :=
  {[ data_path +:+ train_file := "12 7 3" ]}.

Definition no_vocab_file : gmap string string :=
  {[ data_path +:+ train_file := "12 7 3"; data_path +:+ valid_file := "" ]}.

(** A disk whose validation file is empty. *)
Definition empty_valid_file : gmap string string :=
  <[ vocab_path := "she" ]> no_vocab_file.

End SpellChecker.

(** * Stepping through a computation *)

Lemma bind_returned {S A B} (m : prog S A) (k : A → prog S B) s a s' :
  m s = (Returned a, s') → bind m k s = k a s'.
Proof. intros E. unfold bind. by rewrite E. Qed.

Lemma bind_raised {S A B} (m : prog S A) (k : A → prog S B) s e s' :
  m s = (Raised e, s') → bind m k s = (Raised e, s').
Proof. intros E. unfold bind. by rewrite E. Qed.

(** * Properties of the OCR proxy *)

Module OcrProofs.
Import Ocr.

Section Facts.
Context `{Gateway}.

Lemma getattr_some obj name v w :
  attr w obj name = Some v → getattr obj name w = (Returned v, w).
Proof. intros E. unfold getattr. by rewrite E. Qed.

(** Writing an attribute of the object allocated last. *)
Lemma setattr_last objs cls d j cs name v :
  setattr (PyRef (length objs)) name v (World (objs ++ [PyObject cls d]) j cs)
  = (Returned (), World (objs ++ [PyObject cls (<[name := v]> d)]) j cs).
Proof.
  unfold setattr; simpl. rewrite list_lookup_middle by done. simpl.
  do 2 f_equal. f_equal.
  rewrite insert_app_r_alt by lia. by rewrite Nat.sub_diag.
Qed.

(** **** createDataset *)

Lemma createDataset_wrong_type self spark input_path w :
  typeof w spark ≠ SparkSession →
  createDataset self spark input_path w = (Raised wrong_session_error, w).
Proof.
  intros Hne. unfold createDataset, bind, type. by rewrite decide_True.
Qed.

Lemma DataFrame_new_spec jdf spark w :
  DataFrame_new jdf spark w
  = (Returned (PyRef (length (heap w))),
     World (heap w ++ [dataframe_object jdf spark]) (jvm w) (calls w)).
Proof.
  destruct w as [objs j cs]. unfold DataFrame_new.
  rewrite (bind_returned _ _ _ (length objs)
             (World (objs ++ [PyObject DataFrame ∅]) j cs)) by done.
  rewrite (bind_returned _ _ _ () _ (setattr_last _ _ _ _ _ _ _)).
  rewrite (bind_returned _ _ _ () _ (setattr_last _ _ _ _ _ _ _)).
  done.
Qed.

(** The right-hand side of [createDataset] when the type test passes. *)
Lemma createDataset_session self h spark js input_path w :
  attr w self "_java_obj" = Some (PyJava h) →
  typeof w spark = SparkSession →
  attr w spark "_jsparkSession" = Some js →
  createDataset self spark input_path w
  = match remote (JInvoke h "createDataset" [js; input_path]) (jvm w) with
    | (JReturn jdf, j') =>
        (Returned (PyRef (length (heap w))),
         World (heap w ++ [dataframe_object jdf spark]) j'
               (calls w ++ [JInvoke h "createDataset" [js; input_path]]))
    | (JThrow x, j') =>
        (Raised (Py4JJavaError x),
         World (heap w) j' (calls w ++ [JInvoke h "createDataset" [js; input_path]]))
    end.
Proof.
  intros Hself Hty Hjs. unfold createDataset.
  rewrite (bind_returned _ _ w SparkSession w) by (unfold type; by rewrite Hty).
  rewrite decide_False by (intros Hne; by apply Hne).
  rewrite (bind_returned _ _ _ _ _ (getattr_some _ _ _ _ Hself)).
  rewrite (bind_returned _ _ w (h, "createDataset") w) by done.
  rewrite (bind_returned _ _ _ _ _ (getattr_some _ _ _ _ Hjs)).
  unfold bind at 1, japply, bridge. simpl.
  destruct (remote _ _) as [[jdf|x] j']; cbn [py4j_result]; [|done].
  by rewrite DataFrame_new_spec.
Qed.

(** C2.  For every [spark] and [input_path]:
    - [createDataset] raises its exception if and only if [spark] is not
      a session object, that is, its type is not [SparkSession];
    - when [spark] is a session object, [createDataset] makes the remote
      [createDataset] call with the session's JVM handle and the path,
      and returns the table handle of the answer wrapped in a new
      [DataFrame] paired with [spark] itself;
    - so, the remote call answering, [createDataset] raises an exception
      if and only if [spark] is not a session object. *)
Theorem createDataset_spec self h spark input_path w :
  attr w self "_java_obj" = Some (PyJava h) →
  session_wf w spark →
  ((createDataset self spark input_path w).1 = Raised wrong_session_error
     ↔ typeof w spark ≠ SparkSession)
  ∧ (typeof w spark = SparkSession →
     ∃ js,
       attr w spark "_jsparkSession" = Some js
       ∧ calls (createDataset self spark input_path w).2
         = calls w ++ [JInvoke h "createDataset" [js; input_path]]
       ∧ ∀ jdf j',
           remote (JInvoke h "createDataset" [js; input_path]) (jvm w) = (JReturn jdf, j') →
           createDataset self spark input_path w
           = (Returned (PyRef (length (heap w))),
              World (heap w ++ [dataframe_object jdf spark]) j'
                    (calls w ++ [JInvoke h "createDataset" [js; input_path]])))
  ∧ ((∀ js, answers (remote (JInvoke h "createDataset" [js; input_path]) (jvm w)).1) →
     (is_raised (createDataset self spark input_path w).1
        ↔ typeof w spark ≠ SparkSession)).
Proof.
  intros Hself Hwf.
  destruct (decide (typeof w spark = SparkSession)) as [Hty|Hne].
  - destruct (Hwf Hty) as [js Hjs].
    pose proof (createDataset_session self h spark js input_path w Hself Hty Hjs) as E.
    split; [|split].
    + split; [|done]. rewrite E.
      by destruct (remote _ _) as [[jdf|x] j'].
    + intros _. exists js. split; [done|]. split.
      * rewrite E. by destruct (remote _ _) as [[jdf|x] j'].
      * intros jdf j' Hr. by rewrite E, Hr.
    + intros Hans. specialize (Hans js). split; [|done]. rewrite E.
      by destruct (remote _ _) as [[jdf|x] j'].
  - rewrite (createDataset_wrong_type self spark input_path w Hne).
    split; [done|]. split; done.
Qed.

(** C8.  The test is an equality of types, not an instance-of test:
    [createDataset] raises for every first argument whose exact type is
    not [SparkSession], and so for every instance of a proper subclass of
    [SparkSession]. *)
Theorem createDataset_type_equality self input_path w :
  (∀ spark, typeof w spark ≠ SparkSession →
     (createDataset self spark input_path w).1 = Raised wrong_session_error)
  ∧ (∀ spark, proper_subclass (typeof w spark) SparkSession →
     (createDataset self spark input_path w).1 = Raised wrong_session_error).
Proof.
  split.
  - intros spark Hne. by rewrite createDataset_wrong_type.
  - intros spark [_ Hne]. by rewrite createDataset_wrong_type.
Qed.

(** C9.  On the error path of [createDataset] nothing crosses the bridge:
    the list of remote calls and the JVM state are what they were before
    the call (and so is the heap). *)
Theorem createDataset_error_before_remote self spark input_path w :
  typeof w spark ≠ SparkSession →
  is_raised (createDataset self spark input_path w).1
  ∧ calls (createDataset self spark input_path w).2 = calls w
  ∧ jvm (createDataset self spark input_path w).2 = jvm w
  ∧ heap (createDataset self spark input_path w).2 = heap w.
Proof.
  intros Hne. by rewrite createDataset_wrong_type.
Qed.

(** **** The pass-through methods *)

Lemma bridge_forwarded c w : bridge c w = forwarded c w.
Proof. unfold bridge, forwarded. by destruct (remote c (jvm w)). Qed.

(** The body shared by the pass-through methods. *)
Lemma proxy_body self h method params w :
  attr w self "_java_obj" = Some (PyJava h) →
  bind (getattr self "_java_obj") (λ jobj, jinvoke jobj method params) w
  = forwarded (JInvoke h method params) w.
Proof.
  intros Hself. rewrite (bind_returned _ _ _ _ _ (getattr_some _ _ _ _ Hself)).
  unfold jinvoke. rewrite (bind_returned _ _ w (h, method) w) by done.
  apply bridge_forwarded.
Qed.

Lemma bind_positional_some r ds args params :
  bind_positional r ds args = Some params →
  (r ≤ length args ≤ r + length ds)
  ∧ params = args ++ drop (length args - r) ds.
Proof.
  unfold bind_positional. intros Hb.
  destruct (r <=? length args) eqn:E1; [|done].
  destruct (length args <=? r + length ds) eqn:E2; [|done].
  apply Nat.leb_le in E1. apply Nat.leb_le in E2. simpl in Hb.
  split; [lia | congruence].
Qed.

(** C3, as amended.  For each pass-through method and each positional
    argument list its signature accepts, the call makes exactly one remote
    call, to the method of the same name on the helper's remote object,
    with the bound parameters: the argument list itself, followed for
    [useErosion] by the defaults ([k_size = 2], [k_shape = 0]) of the
    arguments left out.  What the remote call answers is returned
    unchanged. *)
Theorem call_forwards_bound_arguments m self h args params w :
  attr w self "_java_obj" = Some (PyJava h) →
  bind_positional (required m) (defaults m) args = Some params →
  call m self args w = forwarded (JInvoke h (method_name m) params) w
  ∧ params = args ++ drop (length args - required m) (defaults m)
  ∧ (m ≠ UseErosion ∨ length args = 3 → params = args).
Proof.
  intros Hself Hb. destruct (bind_positional_some _ _ _ _ Hb) as [Hlen Hparams].
  split; [|split; [done|]].
  - unfold call. rewrite Hb. clear Hb. subst params.
    destruct m; simpl in Hlen;
      destruct args as [|a1 [|a2 [|a3 [|a4 args]]]]; simpl in Hlen; try lia;
      by apply proxy_body.
  - intros Hm. subst params.
    assert (drop (length args - required m) (defaults m) = []) as ->.
    { destruct Hm as [Hm|Hm]; [|rewrite Hm];
        destruct m; simpl; rewrite ?drop_nil; done. }
    by rewrite app_nil_r.
Qed.

(** **** Constructors *)

Lemma OcrHelper_new_spec wd :
  OcrHelper_new wd
  = let c := JNew "com.johnsnowlabs.nlp.util.io.OcrHelper" [] in
    match remote c (jvm wd) with
    | (JReturn jobj, j') =>
        (Returned (PyRef (length (heap wd))),
         World (heap wd ++ [helper_object jobj]) j' (calls wd ++ [c]))
    | (JThrow x, j') =>
        (Raised (Py4JJavaError x),
         World (heap wd ++ [PyObject OcrHelper ∅]) j' (calls wd ++ [c]))
    end.
Proof.
  destruct wd as [objs j cs]. unfold OcrHelper_new.
  rewrite (bind_returned _ _ _ (length objs)
             (World (objs ++ [PyObject OcrHelper ∅]) j cs)) by done.
  unfold OcrHelper_init, ExtendedJavaWrapper_init. simpl.
  unfold bind at 1 2. unfold bridge at 1. simpl.
  destruct (remote _ j) as [[jobj|exn] j']; cbn [py4j_result]; [|done].
  rewrite (bind_returned _ _ _ () _ (setattr_last _ _ _ _ _ _ _)).
  by rewrite setattr_last.
Qed.

Lemma Coordinate_new_spec i p x y w h wd :
  Coordinate_new i p x y w h wd
  = let c := new_Coordinate_call i p x y w h in
    match remote c (jvm wd) with
    | (JReturn jobj, j') =>
        (Returned (PyRef (length (heap wd))),
         World (heap wd ++ [coordinate_object jobj i p x y w h]) j' (calls wd ++ [c]))
    | (JThrow x, j') =>
        (Raised (Py4JJavaError x),
         World (heap wd ++ [PyObject Coordinate ∅]) j' (calls wd ++ [c]))
    end.
Proof.
  destruct wd as [objs j cs]. unfold Coordinate_new.
  rewrite (bind_returned _ _ _ (length objs)
             (World (objs ++ [PyObject Coordinate ∅]) j cs)) by done.
  unfold Coordinate_init, ExtendedJavaWrapper_init. simpl.
  unfold bind at 1 2 3. unfold bridge at 1. simpl.
  destruct (remote _ j) as [[jobj|exn] j']; cbn [py4j_result]; [|done].
  rewrite (bind_returned _ _ _ () _ (setattr_last _ _ _ _ _ _ _)).
  rewrite setattr_last.
  do 5 rewrite (bind_returned _ _ _ () _ (setattr_last _ _ _ _ _ _ _)).
  by rewrite setattr_last.
Qed.

(** Reading the attributes of a freshly built coordinate. *)
Lemma coordinate_object_fields objs more jobj i p x y w h j cs :
  let wd := World (objs ++ coordinate_object jobj i p x y w h :: more) j cs in
  let c := PyRef (length objs) in
  attr wd c "i" = Some i ∧ attr wd c "p" = Some p
  ∧ attr wd c "x" = Some x ∧ attr wd c "y" = Some y
  ∧ attr wd c "w" = Some w ∧ attr wd c "h" = Some h.
Proof.
  unfold attr; simpl. rewrite list_lookup_middle by done. simpl.
  repeat split; by simplify_map_eq.
Qed.

(** C5.  Constructing [Coordinate(i, p, x, y, w, h)] sends exactly these
    six values, in this order, to the remote-side constructor; and when
    that constructor answers, the new object has them as its attributes
    [i], [p], [x], [y], [w], [h]. *)
Theorem Coordinate_new_stores_and_forwards i p x y w h wd :
  calls (Coordinate_new i p x y w h wd).2
  = calls wd ++ [JNew "com.johnsnowlabs.nlp.util.io.schema.Coordinate" [i; p; x; y; w; h]]
  ∧ (answers (remote (new_Coordinate_call i p x y w h) (jvm wd)).1 →
     ∃ c, (Coordinate_new i p x y w h wd).1 = Returned c
          ∧ typeof (Coordinate_new i p x y w h wd).2 c = Coordinate
          ∧ attr (Coordinate_new i p x y w h wd).2 c "i" = Some i
          ∧ attr (Coordinate_new i p x y w h wd).2 c "p" = Some p
          ∧ attr (Coordinate_new i p x y w h wd).2 c "x" = Some x
          ∧ attr (Coordinate_new i p x y w h wd).2 c "y" = Some y
          ∧ attr (Coordinate_new i p x y w h wd).2 c "w" = Some w
          ∧ attr (Coordinate_new i p x y w h wd).2 c "h" = Some h).
Proof.
  rewrite Coordinate_new_spec. simpl.
  destruct (remote _ (jvm wd)) as [[jobj|exn] j']; simpl; (split; [done|]); [|done].
  intros _. exists (PyRef (length (heap wd))). split; [done|]. split.
  - simpl. by rewrite list_lookup_middle.
  - apply (coordinate_object_fields (heap wd) []).
Qed.

(** **** Objects are never written after construction *)

Lemma grows_same {A} (m : py A) : (∀ w, heap (m w).2 = heap w) → grows m.
Proof. intros E w. exists []. by rewrite app_nil_r. Qed.

Lemma grows_bind {A B} (m : py A) (k : A → py B) :
  grows m → (∀ a, grows (k a)) → grows (bind m k).
Proof.
  intros Hm Hk w. unfold bind. destruct (Hm w) as [objs1 E1].
  destruct (m w) as [[a|e] w1]; simpl in *.
  - destruct (Hk a w1) as [objs2 E2]. exists (objs1 ++ objs2).
    by rewrite E2, E1, app_assoc.
  - by exists objs1.
Qed.

Lemma grows_ret {A} (a : A) : grows (ret a).
Proof. by apply grows_same. Qed.

Lemma grows_raise {A} e : grows (raise (A:=A) e).
Proof. by apply grows_same. Qed.

Lemma grows_getattr obj name : grows (getattr obj name).
Proof. apply grows_same. intros w. unfold getattr. by destruct (attr w obj name). Qed.

Lemma grows_type v : grows (type v).
Proof. by apply grows_same. Qed.

Lemma grows_bridge c : grows (bridge c).
Proof. apply grows_same. intros w. unfold bridge. by destruct (remote c (jvm w)). Qed.

Lemma grows_jmember target method : grows (jmember target method).
Proof. destruct target; simpl; auto using grows_raise, grows_ret. Qed.

Lemma grows_japply f args : grows (japply f args).
Proof. apply grows_bridge. Qed.

Lemma grows_jinvoke target method args : grows (jinvoke target method args).
Proof. apply grows_bind; auto using grows_jmember, grows_japply. Qed.

Lemma grows_iter_values v : grows (iter_values v).
Proof. destruct v; simpl; auto using grows_raise, grows_ret. Qed.

Lemma grows_map_py {A B} (f : A → py B) xs : (∀ x, grows (f x)) → grows (map_py f xs).
Proof.
  intros Hf. induction xs as [|x xs IH]; simpl; [apply grows_ret|].
  apply grows_bind; [done|]. intros y.
  apply grows_bind; [done|]. intros ys. apply grows_ret.
Qed.

Lemma grows_DataFrame_new jdf spark : grows (DataFrame_new jdf spark).
Proof. intros w. rewrite DataFrame_new_spec. by eexists. Qed.

Lemma grows_OcrHelper_new : grows OcrHelper_new.
Proof.
  intros w. rewrite OcrHelper_new_spec. simpl.
  destruct (remote _ (jvm w)) as [[jobj|exn] j']; by eexists.
Qed.

Lemma grows_Coordinate_new i p x y w h : grows (Coordinate_new i p x y w h).
Proof.
  intros wd. rewrite Coordinate_new_spec. simpl.
  destruct (remote _ (jvm wd)) as [[jobj|exn] j']; by eexists.
Qed.

Create HintDb grows discriminated.
#[local] Hint Resolve grows_ret grows_raise grows_getattr grows_type grows_bridge
  grows_jmember grows_japply grows_jinvoke grows_iter_values grows_DataFrame_new grows_OcrHelper_new
  grows_Coordinate_new : grows.

Ltac grows_steps :=
  repeat first
    [ solve [auto with grows]
    | apply grows_map_py; intros ?
    | apply grows_bind; [|intros ?] ].

Lemma grows_proxy method self params :
  grows (bind (getattr self "_java_obj") (λ jobj, jinvoke jobj method params)).
Proof. grows_steps. Qed.

Lemma grows_call m self args : grows (call m self args).
Proof.
  unfold call. destruct (bind_positional _ _ _) as [params|]; [|auto with grows].
  destruct m; destruct params as [|a1 [|a2 [|a3 [|a4 params]]]];
    solve [auto with grows | apply grows_proxy].
Qed.

Lemma grows_exec op : grows (exec op).
Proof.
  destruct op; simpl; auto using grows_call with grows.
  - unfold createDataset. apply grows_bind; [auto with grows|]. intros t.
    case_decide; grows_steps.
  - unfold drawRectangle. grows_steps.
Qed.

Lemma exec_all_grows ops w : ∃ objs, heap (exec_all ops w) = heap w ++ objs.
Proof.
  revert w. induction ops as [|op ops IH]; intros w; simpl.
  - exists []. by rewrite app_nil_r.
  - destruct (grows_exec op w) as [objs1 E1].
    destruct (IH (exec op w).2) as [objs2 E2].
    exists (objs1 ++ objs2). unfold exec_all in *. simpl.
    by rewrite E2, E1, app_assoc.
Qed.

(** C4.  A coordinate is never written after its construction: once
    [Coordinate(i, p, x, y, w, h)] has returned the object [c], whatever
    operations of the module run afterwards, on whatever arguments
    (the coordinate included), reading [c.i], [c.p], [c.x], [c.y], [c.w]
    and [c.h] gives the six values of the construction. *)
Theorem Coordinate_immutable i p x y w h wd c wd' ops :
  Coordinate_new i p x y w h wd = (Returned c, wd') →
  attr (exec_all ops wd') c "i" = Some i
  ∧ attr (exec_all ops wd') c "p" = Some p
  ∧ attr (exec_all ops wd') c "x" = Some x
  ∧ attr (exec_all ops wd') c "y" = Some y
  ∧ attr (exec_all ops wd') c "w" = Some w
  ∧ attr (exec_all ops wd') c "h" = Some h.
Proof.
  rewrite Coordinate_new_spec. simpl.
  destruct (remote _ (jvm wd)) as [[jobj|exn] j']; [|done].
  intros [= <- <-].
  destruct (exec_all_grows ops
              (World (heap wd ++ [coordinate_object jobj i p x y w h]) j'
                 (calls wd ++ [new_Coordinate_call i p x y w h]))) as [objs E].
  simpl in E. rewrite <- app_assoc in E. simpl in E.
  pose proof (coordinate_object_fields (heap wd) objs jobj i p x y w h
                j' []) as Hf.
  unfold attr in *. simpl in Hf. by rewrite E.
Qed.

(** **** drawRectangle *)

Lemma map_py_java_obj w coords jcoords :
  Forall2 (is_coordinate w) coords jcoords →
  map_py (λ c, getattr c "java_obj") coords w = (Returned jcoords, w).
Proof.
  induction 1 as [|c jc coords jcoords [_ Hc] _ IH]; simpl; [done|].
  rewrite (bind_returned _ _ _ _ _ (getattr_some _ _ _ _ Hc)).
  by rewrite (bind_returned _ _ _ _ _ IH).
Qed.

(** C6.  For every session, path and list of coordinates,
    [drawRectangle] makes one remote [drawRectangle] call whose arguments
    are the session's JVM handle, the path as given, and the list of the
    coordinates' remote handles, one per coordinate and in the same
    order; the remote answer is returned unchanged. *)
Theorem drawRectangle_forwards self h spark js path coords jcoords w :
  attr w self "_java_obj" = Some (PyJava h) →
  is_session w spark js →
  Forall2 (is_coordinate w) coords jcoords →
  drawRectangle self spark path (PyList coords) w
  = forwarded (JInvoke h "drawRectangle" [js; path; PyList jcoords]) w
  ∧ length jcoords = length coords
  ∧ (∀ k c, coords !! k = Some c → ∃ jc, jcoords !! k = Some jc ∧ attr w c "java_obj" = Some jc).
Proof.
  intros Hself [_ Hjs] Hcs. split; [|split].
  - unfold drawRectangle.
    rewrite (bind_returned _ _ w jcoords w).
    + rewrite (bind_returned _ _ _ _ _ (getattr_some _ _ _ _ Hself)).
      rewrite (bind_returned _ _ w (h, "drawRectangle") w) by done.
      rewrite (bind_returned _ _ _ _ _ (getattr_some _ _ _ _ Hjs)).
      apply bridge_forwarded.
    + rewrite (bind_returned _ _ w coords w) by done.
      by apply map_py_java_obj.
  - symmetry. by eapply Forall2_length.
  - intros k c Hk.
    destruct (Forall2_lookup_l _ _ _ _ _ Hcs Hk) as (jc & Hjc & _ & Hattr).
    by exists jc.
Qed.

(** *** Further properties of [ocr.py] *)

(** **** Shared lemmas *)

Lemma attr_extend w w' objs obj name v :
  heap w' = heap w ++ objs → attr w obj name = Some v → attr w' obj name = Some v.
Proof.
  intros E. destruct obj; simpl; try done. rewrite E.
  destruct (heap w !! l) as [o|] eqn:El; [|done].
  by rewrite (lookup_app_l_Some _ _ _ _ El).
Qed.

Lemma typeof_extend w w' objs l o :
  heap w' = heap w ++ objs → heap w !! l = Some o →
  typeof w' (PyRef l) = typeof w (PyRef l).
Proof.
  intros E El. simpl. rewrite E, El. by rewrite (lookup_app_l_Some _ _ _ _ El).
Qed.

(** A call whose arguments fit the signature runs the body of the method
    on the bound parameters. *)
Lemma call_body m self args params :
  bind_positional (required m) (defaults m) args = Some params →
  call m self args
  = bind (getattr self "_java_obj") (λ jobj, jinvoke jobj (method_name m) params).
Proof.
  intros Hb. destruct (bind_positional_some _ _ _ _ Hb) as [Hlen Hparams].
  unfold call. rewrite Hb. clear Hb. subst params.
  destruct m; simpl in Hlen;
    destruct args as [|a1 [|a2 [|a3 [|a4 args]]]]; simpl in Hlen; try lia;
    reflexivity.
Qed.

Lemma call_bound m self h args params w :
  attr w self "_java_obj" = Some (PyJava h) →
  bind_positional (required m) (defaults m) args = Some params →
  call m self args w = forwarded (JInvoke h (method_name m) params) w.
Proof.
  intros Hself Hb. rewrite (call_body m self args params Hb).
  by apply proxy_body.
Qed.

Lemma bind_positional_none r ds args :
  bind_positional r ds args = None ↔ ¬ (r ≤ length args ≤ r + length ds).
Proof.
  unfold bind_positional.
  destruct (r <=? length args) eqn:E1; destruct (length args <=? r + length ds) eqn:E2;
    simpl; rewrite ?Nat.leb_le, ?Nat.leb_gt in *; split; try done; try lia.
Qed.

Lemma call_bad_arity m self args w :
  bind_positional (required m) (defaults m) args = None →
  call m self args w = (Raised (TypeError (method_name m)), w).
Proof. intros Hb. unfold call. by rewrite Hb. Qed.

Lemma map_py_getattr w name cs vs :
  Forall2 (λ c v, attr w c name = Some v) cs vs →
  map_py (λ c, getattr c name) cs w = (Returned vs, w).
Proof.
  induction 1 as [|c v cs vs Hc _ IH]; simpl; [done|].
  rewrite (bind_returned _ _ _ _ _ (getattr_some _ _ _ _ Hc)).
  by rewrite (bind_returned _ _ _ _ _ IH).
Qed.

Lemma drawRectangle_duck self h spark js path coords jcoords w :
  attr w self "_java_obj" = Some (PyJava h) →
  attr w spark "_jsparkSession" = Some js →
  Forall2 (has_java_obj w) coords jcoords →
  drawRectangle self spark path (PyList coords) w
  = forwarded (JInvoke h "drawRectangle" [js; path; PyList jcoords]) w.
Proof.
  intros Hself Hjs Hcs. unfold drawRectangle.
  rewrite (bind_returned _ _ w jcoords w).
  - rewrite (bind_returned _ _ _ _ _ (getattr_some _ _ _ _ Hself)).
    rewrite (bind_returned _ _ w (h, "drawRectangle") w) by done.
    rewrite (bind_returned _ _ _ _ _ (getattr_some _ _ _ _ Hjs)).
    apply bridge_forwarded.
  - rewrite (bind_returned _ _ w coords w) by done.
    by apply map_py_getattr.
Qed.

(** **** The constructor of [OcrHelper] *)

(** X1.  [OcrHelper()] asks the JVM once, for an instance of
    [com.johnsnowlabs.nlp.util.io.OcrHelper] built from no argument.  When
    the JVM answers, the result is a new object of class [OcrHelper] that
    keeps the answer as [_java_obj] and [java_obj]; when the JVM throws,
    the constructor raises the Java exception and returns no object.  The
    objects that existed before are as they were. *)
Theorem OcrHelper_new_binds wd :
  let c := JNew "com.johnsnowlabs.nlp.util.io.OcrHelper" [] in
  calls (OcrHelper_new wd).2 = calls wd ++ [c]
  ∧ (∀ l o, heap wd !! l = Some o → heap (OcrHelper_new wd).2 !! l = Some o)
  ∧ (∀ jobj j', remote c (jvm wd) = (JReturn jobj, j') →
       ∃ self, (OcrHelper_new wd).1 = Returned self
               ∧ attr wd self "_java_obj" = None
               ∧ typeof (OcrHelper_new wd).2 self = OcrHelper
               ∧ attr (OcrHelper_new wd).2 self "_java_obj" = Some jobj
               ∧ attr (OcrHelper_new wd).2 self "java_obj" = Some jobj)
  ∧ (∀ exn j', remote c (jvm wd) = (JThrow exn, j') →
       (OcrHelper_new wd).1 = Raised (Py4JJavaError exn)).
Proof.
  intros c. rewrite OcrHelper_new_spec. fold c. cbv zeta.
  destruct (remote c (jvm wd)) as [[jobj|exn] j0]; simpl.
  - split; [done|]. split; [by intros l o Hl; apply lookup_app_l_Some|].
    split; [|done]. intros ? ? [= <- <-].
    exists (PyRef (length (heap wd))). split; [done|]. split.
    { unfold attr. by rewrite lookup_ge_None_2. }
    unfold typeof, attr. cbn [heap]. rewrite list_lookup_middle by done. simpl.
    split; [done|]. split; by simplify_map_eq.
  - split; [done|]. split; [by intros l o Hl; apply lookup_app_l_Some|].
    split; [done|]. by intros ? ? [= <- <-].
Qed.

(** X2.  A helper and its remote object stay together: every later call
    of a pass-through method on the helper that [OcrHelper()] returned,
    after any other operations of the module, goes to the JVM object that
    the constructor got. *)
Theorem new_helper_keeps_its_remote_object wd self wd1 h ops m args params :
  OcrHelper_new wd = (Returned self, wd1) →
  (remote (JNew "com.johnsnowlabs.nlp.util.io.OcrHelper" []) (jvm wd)).1
    = JReturn (PyJava h) →
  bind_positional (required m) (defaults m) args = Some params →
  call m self args (exec_all ops wd1)
  = forwarded (JInvoke h (method_name m) params) (exec_all ops wd1).
Proof.
  rewrite OcrHelper_new_spec. cbv zeta.
  destruct (remote _ (jvm wd)) as [[jobj|exn] j0]; simpl; [|done].
  intros [= <- <-] [= ->] Hb.
  destruct (exec_all_grows ops
              (World (heap wd ++ [helper_object (PyJava h)]) j0
                 (calls wd ++ [JNew "com.johnsnowlabs.nlp.util.io.OcrHelper" []])))
    as [objs E].
  apply call_bound; [|done].
  apply (attr_extend _ _ _ _ _ _ E). simpl.
  rewrite list_lookup_middle by done. simpl. by simplify_map_eq.
Qed.

(** **** What no operation does *)

(** X3.  No operation of the module writes to an object that exists
    already: after any sequence of constructor and method calls, on any
    arguments, every object of the heap has the class and the attributes
    it had (a helper keeps its remote object, a session its JVM session, a
    [DataFrame] its table and its session). *)
Theorem existing_objects_untouched ops w l o :
  heap w !! l = Some o → heap (exec_all ops w) !! l = Some o.
Proof.
  intros Hl. destruct (exec_all_grows ops w) as [objs E]. rewrite E.
  by apply lookup_app_l_Some.
Qed.

(** X4.  A pass-through method refuses exactly the argument lists that
    its signature does not fit (fewer arguments than parameters without
    default, or more than parameters): it then raises [TypeError], sends
    nothing and changes nothing; and a [TypeError] never comes out of a
    call whose arguments fit. *)
Theorem call_refuses_bad_arity m self args w :
  call m self args w = (Raised (TypeError (method_name m)), w)
  ↔ ¬ (required m ≤ length args ≤ required m + length (defaults m)).
Proof.
  rewrite <- bind_positional_none. split.
  - intros E. destruct (bind_positional _ _ args) as [params|] eqn:Hb; [|done].
    exfalso. rewrite (call_body m self args params Hb) in E.
    unfold bind, getattr in E. destruct (attr w self "_java_obj") as [jobj|]; [|done].
    unfold jinvoke, bind, jmember in E. destruct jobj; try done.
    unfold ret, japply, bridge in E. simpl in E.
    by destruct (remote _ (jvm w)) as [[v|exn] j0].
  - apply call_bad_arity.
Qed.

(** X5.  The pass-through methods keep no state on the Python side:
    whatever the method, the receiver and the arguments, the call leaves
    the heap as it was.  A value set by a setter is known to the JVM
    only. *)
Theorem call_keeps_no_local_state m self args w :
  heap (call m self args w).2 = heap w.
Proof.
  destruct (bind_positional (required m) (defaults m) args) as [params|] eqn:Hb.
  - rewrite (call_body m self args params Hb).
    unfold bind, getattr. destruct (attr w self "_java_obj") as [jobj|]; [|done].
    unfold jinvoke, bind, jmember. destruct jobj; try done.
    unfold ret, japply, bridge. simpl.
    by destruct (remote _ (jvm w)) as [[v|exn] j0].
  - by rewrite (call_bad_arity m self args w Hb).
Qed.

(** **** [drawRectangle] and [createDataset] side by side *)

(** X6.  [drawRectangle] does not test the type of [spark], and asks of
    the coordinates only that they answer [java_obj]: an object that is
    not of type [SparkSession] but carries [_jsparkSession] is refused by
    [createDataset] and served by [drawRectangle]. *)
Theorem drawRectangle_tests_no_type self h spark js path coords jcoords w :
  attr w self "_java_obj" = Some (PyJava h) →
  typeof w spark ≠ SparkSession →
  attr w spark "_jsparkSession" = Some js →
  Forall2 (has_java_obj w) coords jcoords →
  createDataset self spark path w = (Raised wrong_session_error, w)
  ∧ drawRectangle self spark path (PyList coords) w
    = forwarded (JInvoke h "drawRectangle" [js; path; PyList jcoords]) w.
Proof.
  intros Hself Hne Hjs Hcs. split.
  - by apply createDataset_wrong_type.
  - by apply drawRectangle_duck.
Qed.

Lemma map_py_getattr_missing w name pre vs c post :
  Forall2 (λ c v, attr w c name = Some v) pre vs →
  attr w c name = None →
  map_py (λ c, getattr c name) (pre ++ c :: post) w = (Raised (AttributeError name), w).
Proof.
  intros Hpre Hc. induction Hpre as [|c0 v pre vs Hc0 _ IH]; simpl.
  - unfold bind, getattr. by rewrite Hc.
  - rewrite (bind_returned _ _ _ _ _ (getattr_some _ _ _ _ Hc0)).
    unfold bind at 1. by rewrite IH.
Qed.

(** X7.  The handles of the coordinates are collected before anything
    else: when an element of the list has no [java_obj] (it is not a
    coordinate), [drawRectangle] raises [AttributeError] for [java_obj],
    whatever [self] and [spark] are, and nothing is sent to the JVM. *)
Theorem drawRectangle_bad_coordinate self spark path pre jpre c post w :
  Forall2 (has_java_obj w) pre jpre →
  attr w c "java_obj" = None →
  drawRectangle self spark path (PyList (pre ++ c :: post)) w
  = (Raised (AttributeError "java_obj"), w).
Proof.
  intros Hpre Hc. unfold drawRectangle.
  apply bind_raised.
  rewrite (bind_returned _ _ w (pre ++ c :: post) w) by done.
  by apply (map_py_getattr_missing w "java_obj" pre jpre).
Qed.

(** X8.  A Java exception thrown by the remote [createDataset] is raised
    to the caller as it is: no [DataFrame] is built, the heap is as it
    was, and the call stays recorded. *)
Theorem createDataset_passes_fault_on self h spark js input_path w exn j' :
  attr w self "_java_obj" = Some (PyJava h) →
  typeof w spark = SparkSession →
  attr w spark "_jsparkSession" = Some js →
  remote (JInvoke h "createDataset" [js; input_path]) (jvm w) = (JThrow exn, j') →
  createDataset self spark input_path w
  = (Raised (Py4JJavaError exn),
     World (heap w) j' (calls w ++ [JInvoke h "createDataset" [js; input_path]])).
Proof.
  intros Hself Hty Hjs Hr.
  by rewrite (createDataset_session self h spark js input_path w Hself Hty Hjs), Hr.
Qed.


(** **** Calls over the bridge *)












(** X11.  Settings reach the JVM in the order they are made: a sequence
    of pass-through calls on one helper adds to the log exactly one remote
    call per call, in the same order, each answered by the JVM in the
    state the one before left; the heap is not touched. *)
Theorem proxy_calls_in_order self h ops cs w :
  attr w self "_java_obj" = Some (PyJava h) →
  Forall2 (proxy_call_of self h) ops cs →
  calls (exec_all ops w) = calls w ++ cs
  ∧ jvm (exec_all ops w) = jvm_after cs (jvm w)
  ∧ heap (exec_all ops w) = heap w.
Proof.
  intros Hself Hops. revert w Hself.
  induction Hops as [|op c ops cs (m & args & params & -> & Hb & ->) _ IH];
    intros w Hself.
  - simpl. by rewrite app_nil_r.
  - unfold exec_all, jvm_after in *. simpl.
    rewrite (call_bound m self h args params w Hself Hb). simpl.
    destruct (IH (World (heap w)
                    (remote (JInvoke h (method_name m) params) (jvm w)).2
                    (calls w ++ [JInvoke h (method_name m) params]))) as (Ec & Ej & Eh);
      [done|].
    rewrite Ec, Ej, Eh. simpl. by rewrite <- app_assoc.
Qed.

(** X12.  A coordinate is drawn with the handle it was built with: the
    JVM object that answered [Coordinate(...)] is the one [drawRectangle]
    sends for that coordinate, after whatever operations came between. *)
Theorem constructed_coordinate_is_drawn i p x y w h wd c wd1 jc ops
    self hh spark js path :
  Coordinate_new i p x y w h wd = (Returned c, wd1) →
  (remote (new_Coordinate_call i p x y w h) (jvm wd)).1 = JReturn jc →
  attr (exec_all ops wd1) self "_java_obj" = Some (PyJava hh) →
  attr (exec_all ops wd1) spark "_jsparkSession" = Some js →
  drawRectangle self spark path (PyList [c]) (exec_all ops wd1)
  = forwarded (JInvoke hh "drawRectangle" [js; path; PyList [jc]]) (exec_all ops wd1).
Proof.
  rewrite Coordinate_new_spec. cbv zeta.
  destruct (remote _ (jvm wd)) as [[jobj|exn] j0]; simpl; [|done].
  intros [= <- <-] [= ->] Hself Hjs.
  apply drawRectangle_duck; [done|done|].
  constructor; [|constructor]. unfold has_java_obj.
  destruct (exec_all_grows ops
              (World (heap wd ++ [coordinate_object jc i p x y w h]) j0
                 (calls wd ++ [new_Coordinate_call i p x y w h]))) as [objs E].
  apply (attr_extend _ _ _ _ _ _ E). simpl.
  rewrite list_lookup_middle by done. simpl. by simplify_map_eq.
Qed.

End Facts.

(** **** The statements above at the sample world *)

Lemma createDataset_spec_witness :
  let w := @sample_world counting_jvm 7 in
  (is_raised (@createDataset counting_jvm (PyRef 0) (PyRef 1) (PyStr "/scans") w).1
     ↔ typeof w (PyRef 1) ≠ SparkSession)
  ∧ (is_raised (@createDataset counting_jvm (PyRef 0) (PyRef 2) (PyStr "/scans") w).1
     ↔ typeof w (PyRef 2) ≠ SparkSession).
Proof.
  intros w. split.
  - refine (proj2 (proj2 (@createDataset_spec counting_jvm (PyRef 0) 0 (PyRef 1)
                            (PyStr "/scans") w _ _)) _).
    + reflexivity.
    + intros _. exists (PyJava 1). reflexivity.
    + intros js. exact I.
  - refine (proj2 (proj2 (@createDataset_spec counting_jvm (PyRef 0) 0 (PyRef 2)
                            (PyStr "/scans") w _ _)) _).
    + reflexivity.
    + intros Hty. discriminate Hty.
    + intros js. exact I.
Defined.

Lemma createDataset_type_equality_witness :
  let w := @sample_world counting_jvm 7 in
  proper_subclass (typeof w (PyRef 2)) SparkSession
  ∧ (@createDataset counting_jvm (PyRef 0) (PyRef 2) (PyStr "/scans") w).1
    = Raised wrong_session_error.
Proof.
  intros w.
  assert (Hsub : proper_subclass (typeof w (PyRef 2)) SparkSession).
  { split; [reflexivity | discriminate]. }
  split; [exact Hsub|].
  exact (proj2 (@createDataset_type_equality counting_jvm (PyRef 0) (PyStr "/scans") w)
           (PyRef 2) Hsub).
Defined.

Lemma createDataset_error_before_remote_witness :
  let w := @sample_world counting_jvm 7 in
  calls (@createDataset counting_jvm (PyRef 0) (PyInt 3) (PyStr "/scans") w).2 = [].
Proof.
  intros w.
  refine (proj1 (proj2 (@createDataset_error_before_remote counting_jvm
                          (PyRef 0) (PyInt 3) (PyStr "/scans") w _))).
  discriminate.
Defined.

(** C3, as worded, fails: [useErosion(True)] reaches the remote object
    with three arguments, not with the one-element list of the caller. *)
Lemma useErosion_does_not_forward_exactly :
  ¬ @forwards_exactly counting_jvm UseErosion (PyRef 0) [PyBool true]
      (@sample_world counting_jvm 7).
Proof.
  intros [h [Hh E]]. vm_compute in Hh. injection Hh as <-.
  vm_compute in E. discriminate E.
Qed.

Lemma call_forwards_bound_arguments_witness :
  let w := @sample_world counting_jvm 7 in
  @call counting_jvm UseErosion (PyRef 0) [PyBool true] w
  = (Returned (PyJava 7),
     @World counting_jvm (heap w) 8 [JInvoke 0 "useErosion" [PyBool true; PyInt 2; PyInt 0]]).
Proof.
  intros w.
  refine (proj1 (@call_forwards_bound_arguments counting_jvm UseErosion (PyRef 0) 0
                   [PyBool true] [PyBool true; PyInt 2; PyInt 0] w _ _));
    reflexivity.
Defined.

Lemma Coordinate_new_stores_and_forwards_witness :
  let w := @sample_world counting_jvm 7 in
  let r := @Coordinate_new counting_jvm (PyInt 0) (PyInt 1) (PyInt 10) (PyInt 20)
             (PyInt 300) (PyInt 40) w in
  ∃ c, r.1 = Returned c ∧ attr r.2 c "w" = Some (PyInt 300).
Proof.
  intros w r.
  destruct (proj2 (@Coordinate_new_stores_and_forwards counting_jvm (PyInt 0) (PyInt 1)
                     (PyInt 10) (PyInt 20) (PyInt 300) (PyInt 40) w) I)
    as (c & Hc & _ & _ & _ & _ & _ & Hw & _).
  exists c. split; [exact Hc | exact Hw].
Defined.

Lemma Coordinate_immutable_witness :
  let w := @sample_world counting_jvm 7 in
  let w' := (@Coordinate_new counting_jvm (PyInt 0) (PyInt 1) (PyInt 10) (PyInt 20)
               (PyInt 300) (PyInt 40) w).2 in
  attr (@exec_all counting_jvm later_operations w') (PyRef 3) "x" = Some (PyInt 10).
Proof.
  intros w w'.
  refine (proj1 (proj2 (proj2 (@Coordinate_immutable counting_jvm (PyInt 0) (PyInt 1)
            (PyInt 10) (PyInt 20) (PyInt 300) (PyInt 40) w (PyRef 3) w'
            later_operations _)))).
  reflexivity.
Defined.

Lemma drawRectangle_forwards_witness :
  let w := @exec_all counting_jvm two_coordinates (@sample_world counting_jvm 7) in
  (@drawRectangle counting_jvm (PyRef 0) (PyRef 1) (PyStr "/scans/a.pdf")
     (PyList [PyRef 3; PyRef 4]) w).1 = Returned (PyJava 9)
  ∧ calls (@drawRectangle counting_jvm (PyRef 0) (PyRef 1) (PyStr "/scans/a.pdf")
             (PyList [PyRef 3; PyRef 4]) w).2
    = calls w ++ [JInvoke 0 "drawRectangle"
                    [PyJava 1; PyStr "/scans/a.pdf"; PyList [PyJava 7; PyJava 8]]].
Proof.
  intros w.
  assert (E : @drawRectangle counting_jvm (PyRef 0) (PyRef 1) (PyStr "/scans/a.pdf")
                (PyList [PyRef 3; PyRef 4]) w
              = @forwarded counting_jvm
                  (JInvoke 0 "drawRectangle"
                     [PyJava 1; PyStr "/scans/a.pdf"; PyList [PyJava 7; PyJava 8]]) w).
  { refine (proj1 (@drawRectangle_forwards counting_jvm (PyRef 0) 0 (PyRef 1) (PyJava 1)
                     (PyStr "/scans/a.pdf") [PyRef 3; PyRef 4] [PyJava 7; PyJava 8]
                     w _ _ _)).
    - reflexivity.
    - split; reflexivity.
    - repeat constructor. }
  rewrite E. split; reflexivity.
Defined.

(** A fault of the remote [createDataset] comes back to the caller as it
    is, although [spark] is a session. *)
Example createDataset_remote_fault :
  (@createDataset faulting_jvm (PyRef 0) (PyRef 1) (PyStr "/scans")
     (@sample_world faulting_jvm ())).1
  = Raised (Py4JJavaError "java.io.IOException").
Proof. reflexivity. Qed.

(** **** The further properties at the sample world *)

Lemma OcrHelper_new_binds_witness :
  ∃ self, (@OcrHelper_new counting_jvm (@sample_world counting_jvm 7)).1 = Returned self
          ∧ attr (@OcrHelper_new counting_jvm (@sample_world counting_jvm 7)).2
              self "_java_obj" = Some (PyJava 7).
Proof.
  destruct (proj1 (proj2 (proj2 (@OcrHelper_new_binds counting_jvm
                                   (@sample_world counting_jvm 7))))
              (PyJava 7) (8 : @jstate counting_jvm) eq_refl)
    as (self & Hself & _ & _ & Hobj & _).
  exists self. split; [exact Hself | exact Hobj].
Defined.

Lemma new_helper_keeps_its_remote_object_witness :
  let w1 := (@OcrHelper_new counting_jvm (@sample_world counting_jvm 7)).2 in
  @call counting_jvm SetEngineMode (PyRef 3) [PyInt 1]
    (@exec_all counting_jvm later_operations w1)
  = @forwarded counting_jvm (JInvoke 7 "setEngineMode" [PyInt 1])
      (@exec_all counting_jvm later_operations w1).
Proof.
  intros w1.
  refine (@new_helper_keeps_its_remote_object counting_jvm
            (@sample_world counting_jvm 7) (PyRef 3) w1 7 later_operations
            SetEngineMode [PyInt 1] [PyInt 1] _ _ _); reflexivity.
Defined.

Lemma existing_objects_untouched_witness :
  heap (@exec_all counting_jvm later_operations (@sample_world counting_jvm 7)) !! 1
  = Some a_session.
Proof.
  refine (@existing_objects_untouched counting_jvm later_operations
            (@sample_world counting_jvm 7) 1 a_session _).
  reflexivity.
Defined.

Lemma drawRectangle_tests_no_type_witness :
  let w := @exec_all counting_jvm two_coordinates (@sample_world counting_jvm 7) in
  @createDataset counting_jvm (PyRef 0) (PyRef 2) (PyStr "/scans/a.pdf") w
  = (Raised wrong_session_error, w)
  ∧ (@drawRectangle counting_jvm (PyRef 0) (PyRef 2) (PyStr "/scans/a.pdf")
       (PyList [PyRef 3; PyRef 4]) w).1 = Returned (PyJava 9).
Proof.
  intros w.
  destruct (@drawRectangle_tests_no_type counting_jvm (PyRef 0) 0 (PyRef 2) (PyJava 2)
              (PyStr "/scans/a.pdf") [PyRef 3; PyRef 4] [PyJava 7; PyJava 8] w)
    as [Hcreate Hdraw].
  - reflexivity.
  - discriminate.
  - reflexivity.
  - repeat constructor.
  - split; [exact Hcreate|]. rewrite Hdraw. reflexivity.
Defined.

Lemma drawRectangle_bad_coordinate_witness :
  let w := @exec_all counting_jvm two_coordinates (@sample_world counting_jvm 7) in
  @drawRectangle counting_jvm (PyRef 0) (PyRef 1) (PyStr "/scans/a.pdf")
    (PyList [PyRef 3; PyInt 5; PyRef 4]) w
  = (Raised (AttributeError "java_obj"), w).
Proof.
  intros w.
  refine (@drawRectangle_bad_coordinate counting_jvm (PyRef 0) (PyRef 1)
            (PyStr "/scans/a.pdf") [PyRef 3] [PyJava 7] (PyInt 5) [PyRef 4] w _ _).
  - repeat constructor.
  - reflexivity.
Defined.

Lemma createDataset_passes_fault_on_witness :
  @createDataset faulting_jvm (PyRef 0) (PyRef 1) (PyStr "/scans")
    (@sample_world faulting_jvm ())
  = (Raised (Py4JJavaError "java.io.IOException"),
     @World faulting_jvm [a_helper; a_session; a_subclass_session] ()
       [JInvoke 0 "createDataset" [PyJava 1; PyStr "/scans"]]).
Proof.
  refine (@createDataset_passes_fault_on faulting_jvm (PyRef 0) 0 (PyRef 1) (PyJava 1)
            (PyStr "/scans") (@sample_world faulting_jvm ()) "java.io.IOException" ()
            _ _ _ _); reflexivity.
Defined.


Lemma proxy_calls_in_order_witness :
  calls (@exec_all counting_jvm
           [CallProxy SetPageSegMode (PyRef 0) [PyInt 3];
            CallProxy UseErosion (PyRef 0) [PyBool true; PyInt 4];
            CallProxy GetPageSegMode (PyRef 0) []]
           (@sample_world counting_jvm 7))
  = [JInvoke 0 "setPageSegMode" [PyInt 3];
     JInvoke 0 "useErosion" [PyBool true; PyInt 4; PyInt 0];
     JInvoke 0 "getPageSegMode" []].
Proof.
  refine (proj1 (@proxy_calls_in_order counting_jvm (PyRef 0) 0 _ _
                   (@sample_world counting_jvm 7) _ _)).
  - reflexivity.
  - constructor; [by exists SetPageSegMode, [PyInt 3], [PyInt 3]|].
    constructor; [by exists UseErosion, [PyBool true; PyInt 4],
                       [PyBool true; PyInt 4; PyInt 0]|].
    constructor; [by exists GetPageSegMode, [], []|].
    constructor.
Defined.

Lemma constructed_coordinate_is_drawn_witness :
  let w1 := (@Coordinate_new counting_jvm (PyInt 0) (PyInt 1) (PyInt 10) (PyInt 20)
               (PyInt 300) (PyInt 40) (@sample_world counting_jvm 7)).2 in
  @drawRectangle counting_jvm (PyRef 0) (PyRef 1) (PyStr "/scans/a.pdf")
    (PyList [PyRef 3]) (@exec_all counting_jvm later_operations w1)
  = @forwarded counting_jvm
      (JInvoke 0 "drawRectangle" [PyJava 1; PyStr "/scans/a.pdf"; PyList [PyJava 7]])
      (@exec_all counting_jvm later_operations w1).
Proof.
  intros w1.
  refine (@constructed_coordinate_is_drawn counting_jvm (PyInt 0) (PyInt 1) (PyInt 10)
            (PyInt 20) (PyInt 300) (PyInt 40) (@sample_world counting_jvm 7) (PyRef 3)
            w1 (PyJava 7) later_operations (PyRef 0) 0 (PyRef 1) (PyJava 1)
            (PyStr "/scans/a.pdf") _ _ _ _); reflexivity.
Defined.

End OcrProofs.

(** * Properties of the spell-checker script *)

Module SpellCheckerProofs.
Import SpellChecker.

(** **** Line counts *)

Lemma append_char_nonempty (line : string) (c : ascii) :
  line +:+ String c EmptyString ≠ EmptyString.
Proof. by destruct line. Qed.

Lemma length_readlines_from line text :
  length (readlines_from line text)
  = count_newlines text
    + match last_char text with
      | Some c => if Ascii.eqb c newline then 0 else 1
      | None => match line with EmptyString => 0 | _ => 1 end
      end.
Proof.
  revert line. induction text as [|c rest IH]; intros line; simpl.
  - by destruct line.
  - destruct (Ascii.eqb c newline) eqn:Ec; simpl; rewrite IH.
    + destruct (last_char rest); [done|]. by rewrite Ec.
    + destruct (last_char rest); [done|]. rewrite Ec.
      pose proof (append_char_nonempty line c).
      by destruct (line +:+ String c EmptyString).
Qed.

Lemma length_readlines text : length (readlines text) = line_count text.
Proof.
  unfold readlines, line_count. rewrite length_readlines_from.
  by destruct (last_char text).
Qed.

(** **** The three files *)

Lemma open_some path content s :
  files s !! path = Some content → open path s = (Returned content, s).
Proof. intros E. unfold open. by rewrite E. Qed.

Lemma read_sizes_spec s train valid vocab :
  data_files (files s) train valid vocab →
  read_sizes s = (Returned (sizes_of train valid vocab), s).
Proof.
  intros (Ht & Hv & Hvoc). unfold read_sizes.
  rewrite (bind_returned _ _ _ _ _ (open_some _ _ _ Ht)).
  rewrite (bind_returned _ _ _ _ _ (open_some _ _ _ Hv)).
  rewrite (bind_returned _ _ _ _ _ (open_some _ _ _ Hvoc)).
  unfold ret, sizes_of, len. by rewrite !length_readlines.
Qed.

(** **** The whole trace *)

Lemma emit_step {A} e (k : unit → script A) fs tr :
  bind (emit e) k (State fs tr) = k () (State fs (tr ++ [e])).
Proof. done. Qed.

Lemma train_block_spec g fs tr :
  train_block g (State fs tr) = (Returned (), State fs (tr ++ train_events g)).
Proof.
  unfold train_block, create_model, bind, emit, train_events, create_model_events.
  cbn [files trace]. by rewrite <- !app_assoc.
Qed.

Lemma restore_block_spec g fs tr :
  restore_block g (State fs tr) = (Returned (), State fs (tr ++ restore_events g)).
Proof.
  unfold restore_block, create_model, bind, emit, restore_events, create_model_events.
  cbn [files trace test_sentences fst]. by rewrite <- !app_assoc.
Qed.

Lemma run_spec flag fs train valid vocab :
  data_files fs train valid vocab →
  run flag (start fs)
  = (Returned (),
     State fs (SetEnv "TF_CPP_MIN_LOG_LEVEL" "3"
               :: (if flag then train_events (sizes_of train valid vocab) else [])
               ++ restore_events (sizes_of train valid vocab))).
Proof.
  intros Hfs. unfold run, start. rewrite emit_step.
  rewrite (bind_returned _ _ _ _ _ (read_sizes_spec (State fs _) _ _ _ Hfs)).
  destruct flag.
  - rewrite (bind_returned _ _ _ _ _ (train_block_spec _ _ _)).
    rewrite restore_block_spec. by rewrite <- app_assoc.
  - unfold bind at 1, ret. by rewrite restore_block_spec.
Qed.

(** C7.  Whatever the three files contain, [num_train_samples] is the
    number of lines of the train ids file, [num_valid_samples] the number
    of lines of the validation ids file and [vocab_size] the number of
    lines of the vocabulary file. *)
Theorem sizes_are_line_counts fs tr train valid vocab :
  data_files fs train valid vocab →
  ∃ g, (read_sizes (State fs tr)).1 = Returned g
       ∧ num_train_samples g = Z.of_nat (line_count train)
       ∧ num_valid_samples g = Z.of_nat (line_count valid)
       ∧ vocab_size g = Z.of_nat (line_count vocab).
Proof.
  intros Hfs. rewrite (read_sizes_spec (State fs tr) _ _ _ Hfs).
  by exists (sizes_of train valid vocab).
Qed.

(** C1, as worded, fails: with [TRAIN] set, the run trains and then also
    restores the checkpoint and runs the predictions. *)
Lemma training_run_also_restores :
  ¬ mutually_exclusive (trace (run true (start sample_files)).2).
Proof. intros Hex. apply Hex. split; vm_compute; reflexivity. Qed.

(** C1, as amended.  The flag [TRAIN] decides one thing only, whether the
    training loop runs: it runs when [TRAIN] is true and does not when
    [TRAIN] is false.  Restoring the saved checkpoint and running the
    predictions on the fixed test sentences happen for both values of
    [TRAIN], after the training when there is one. *)
Theorem train_flag_gates_training_only flag fs train valid vocab :
  data_files fs train valid vocab →
  (run flag (start fs)).1 = Returned ()
  ∧ trains (trace (run flag (start fs)).2) = flag
  ∧ restores_and_infers (trace (run flag (start fs)).2) = true
  ∧ ∃ before,
      trace (run flag (start fs)).2
      = before ++ (if flag then [BatchTrain (data_path +:+ train_file)
                                   (data_path +:+ valid_file); SessionExit]
                   else [])
        ++ restore_events (sizes_of train valid vocab).
Proof.
  intros Hfs. rewrite (run_spec flag fs train valid vocab Hfs). cbn [fst snd trace].
  split; [done|]. split; [by destruct flag|]. split; [by destruct flag|].
  destruct flag.
  - eexists (SetEnv _ _ :: [GPUOptions _; SessionEnter _] ++ create_model_events _
             ++ [LoadClasses _; LoadVocab _; NewSaver]).
    unfold train_events. by rewrite <- !app_assoc.
  - by exists [SetEnv "TF_CPP_MIN_LOG_LEVEL" "3"].
Qed.

(** C10.  On every run, whatever the value of [TRAIN], the model is
    exported under the name ['bundle'] right after the checkpoint is
    restored and before the predictions on the test sentences. *)
Theorem bundle_exported_on_every_run flag fs train valid vocab :
  data_files fs train valid vocab →
  (run flag (start fs)).1 = Returned ()
  ∧ ∃ before,
      trace (run flag (start fs)).2
      = before ++ [Restore model_path; Save "bundle"; Predict test_sentences.1;
                   SessionExit].
Proof.
  intros Hfs. rewrite (run_spec flag fs train valid vocab Hfs). cbn [fst snd trace].
  split; [done|].
  exists (SetEnv "TF_CPP_MIN_LOG_LEVEL" "3"
          :: (if flag then train_events (sizes_of train valid vocab) else [])
          ++ [ResetDefaultGraph; GPUOptions 0.99%Q; SessionEnter false]
          ++ create_model_events (sizes_of train valid vocab)
          ++ [LoadClasses (data_path +:+ classes_file); LoadVocab vocab_path; NewSaver]).
  unfold restore_events, train_events, create_model_events.
  destruct flag; reflexivity.
Qed.

(** **** The statements above on the sample disk *)

Lemma sample_data_files :
  data_files sample_files
    ("12 7 3" +:+ String newline ("4 4" +:+ String newline ""))
    ("9 1" +:+ String newline "")
    ("she" +:+ String newline ("came" +:+ String newline "to")).
Proof. repeat split; vm_compute; reflexivity. Defined.

Lemma sizes_are_line_counts_witness :
  ∃ g, (read_sizes (start sample_files)).1 = Returned g
       ∧ num_train_samples g = 2%Z
       ∧ num_valid_samples g = 1%Z
       ∧ vocab_size g = 3%Z.
Proof.
  destruct (sizes_are_line_counts sample_files [] _ _ _ sample_data_files)
    as (g & Hg & Ht & Hv & Hvoc).
  exists g. split; [exact Hg|]. split; [exact Ht|]. split; [exact Hv | exact Hvoc].
Defined.

Lemma train_flag_gates_training_only_witness :
  trains (trace (run true (start sample_files)).2) = true
  ∧ restores_and_infers (trace (run true (start sample_files)).2) = true
  ∧ trains (trace (run false (start sample_files)).2) = false
  ∧ restores_and_infers (trace (run false (start sample_files)).2) = true.
Proof.
  pose proof (train_flag_gates_training_only true sample_files _ _ _ sample_data_files)
    as (_ & Ht1 & Hr1 & _).
  pose proof (train_flag_gates_training_only false sample_files _ _ _ sample_data_files)
    as (_ & Ht0 & Hr0 & _).
  split; [exact Ht1|]. split; [exact Hr1|]. split; [exact Ht0 | exact Hr0].
Defined.

Lemma bundle_exported_on_every_run_witness :
  ∃ before,
    trace (main (start sample_files)).2
    = before ++ [Restore model_path; Save "bundle"; Predict test_sentences.1;
                 SessionExit].
Proof.
  exact (proj2 (bundle_exported_on_every_run TRAIN sample_files _ _ _ sample_data_files)).
Defined.

(** *** Further properties of [run.py] *)

Lemma open_none path s :
  files s !! path = None → open path s = (Raised (IOError path), s).
Proof. intros E. unfold open. by rewrite E. Qed.

(** X13.  A missing data file stops the script before it asks anything of
    the engine: the files are opened in the order train ids, validation
    ids, vocabulary, the first one missing raises [IOError] for its path,
    and by then only the log level has been set; no session is opened and
    no model is built, for either value of [TRAIN]. *)
Theorem missing_file_stops_run flag fs :
  (fs !! (data_path +:+ train_file) = None →
   run flag (start fs)
   = (Raised (IOError (data_path +:+ train_file)),
      State fs [SetEnv "TF_CPP_MIN_LOG_LEVEL" "3"]))
  ∧ (∀ train,
       fs !! (data_path +:+ train_file) = Some train →
       fs !! (data_path +:+ valid_file) = None →
       run flag (start fs)
       = (Raised (IOError (data_path +:+ valid_file)),
          State fs [SetEnv "TF_CPP_MIN_LOG_LEVEL" "3"]))
  ∧ (∀ train valid,
       fs !! (data_path +:+ train_file) = Some train →
       fs !! (data_path +:+ valid_file) = Some valid →
       fs !! vocab_path = None →
       run flag (start fs)
       = (Raised (IOError vocab_path),
          State fs [SetEnv "TF_CPP_MIN_LOG_LEVEL" "3"])).
Proof.
  unfold run, start. rewrite emit_step. unfold read_sizes. cbn [app].
  split; [|split].
  - intros Ht. apply bind_raised, bind_raised. by apply open_none.
  - intros train Ht Hv. apply bind_raised.
    rewrite (bind_returned _ _ _ _ _ (open_some _ _ (State fs _) Ht)).
    apply bind_raised. by apply open_none.
  - intros train valid Ht Hv Hvoc. apply bind_raised.
    rewrite (bind_returned _ _ _ _ _ (open_some _ _ (State fs _) Ht)).
    rewrite (bind_returned _ _ _ _ _ (open_some _ _ (State fs _) Hv)).
    apply bind_raised. by apply open_none.
Qed.

(** X14.  The model is built the same way every time: a run builds it
    once, or twice when [TRAIN] is set (once to train, once more to
    restore), each time with the vocabulary size and the sample counts
    read from the files and with the same fixed hyper-parameters, so the
    checkpoint is restored into a model of the shape that was trained. *)
Theorem models_built_alike flag fs train valid vocab :
  data_files fs train valid vocab →
  List.filter is_new_model (trace (run flag (start fs)).2)
  = replicate (if flag then 2 else 1) (model_of train valid vocab).
Proof.
  intros Hfs. rewrite (run_spec flag fs train valid vocab Hfs).
  by destruct flag.
Qed.

(** X15.  The two [with tf.Session(...)] blocks never overlap: in every
    run a session is opened only when none is open and closed before the
    next one opens, the graph is reset between the sessions and not
    inside one, every model operation (building, loading, training,
    restoring, saving, predicting) happens inside a session, and no
    session is left open at the end. *)
Theorem sessions_do_not_overlap flag fs train valid vocab :
  data_files fs train valid vocab →
  sessions_ok false (trace (run flag (start fs)).2) = true.
Proof.
  intros Hfs. rewrite (run_spec flag fs train valid vocab Hfs).
  by destruct flag.
Qed.

(** **** Lines *)

Lemma append_empty_r (s : string) : s +:+ EmptyString = s.
Proof.
  induction s as [|c s IH]; [done|].
  change (String c (s +:+ EmptyString) = String c s). by rewrite IH.
Qed.

Lemma append_char_assoc (line : string) (c : ascii) (rest : string) :
  (line +:+ String c EmptyString) +:+ rest = line +:+ String c rest.
Proof.
  induction line as [|c0 line IH]; [done|].
  change (String c0 ((line +:+ String c EmptyString) +:+ rest)
          = String c0 (line +:+ String c rest)).
  by rewrite IH.
Qed.

Lemma concat_cons (x : string) (ls : list string) :
  String.concat EmptyString (x :: ls) = x +:+ String.concat EmptyString ls.
Proof.
  destruct ls; [|reflexivity].
  change (x = x +:+ EmptyString). by rewrite append_empty_r.
Qed.

Lemma concat_readlines_from line text :
  String.concat EmptyString (readlines_from line text) = line +:+ text.
Proof.
  revert line. induction text as [|c rest IH]; intros line.
  - simpl. rewrite append_empty_r. by destruct line.
  - cbn [readlines_from]. destruct (Ascii.eqb c newline).
    + rewrite concat_cons, IH. simpl. by rewrite append_char_assoc.
    + by rewrite IH, append_char_assoc.
Qed.

Lemma readlines_from_nonempty line text :
  Forall (λ l, l ≠ EmptyString) (readlines_from line text).
Proof.
  revert line. induction text as [|c rest IH]; intros line.
  - simpl. destruct line; by repeat constructor.
  - cbn [readlines_from]. destruct (Ascii.eqb c newline); [|done].
    constructor; [apply append_char_nonempty | done].
Qed.

(** X16.  Reading by lines loses nothing and invents nothing: the lines
    that [readlines] returns, put one after the other, are the text of
    the file, and none of them is empty. *)
Theorem readlines_partition text :
  String.concat EmptyString (readlines text) = text
  ∧ Forall (λ l, l ≠ EmptyString) (readlines text).
Proof.
  split; [apply concat_readlines_from | apply readlines_from_nonempty].
Qed.

Lemma line_count_zero text : line_count text = 0 ↔ text = EmptyString.
Proof.
  rewrite <- length_readlines. split.
  - intros Hlen. apply length_zero_iff_nil in Hlen.
    pose proof (concat_readlines_from EmptyString text) as E.
    unfold readlines in Hlen. by rewrite Hlen in E.
  - by intros ->.
Qed.

(** X17.  A size is zero exactly when its file is empty: the script puts
    no guard on it, and an empty vocabulary or corpus reaches [RNNLM] as a
    size of zero. *)
Theorem size_zero_iff_empty_file fs tr train valid vocab :
  data_files fs train valid vocab →
  ∃ g, (read_sizes (State fs tr)).1 = Returned g
       ∧ (num_train_samples g = 0%Z ↔ train = EmptyString)
       ∧ (num_valid_samples g = 0%Z ↔ valid = EmptyString)
       ∧ (vocab_size g = 0%Z ↔ vocab = EmptyString).
Proof.
  intros Hfs. rewrite (read_sizes_spec (State fs tr) _ _ _ Hfs).
  exists (sizes_of train valid vocab). split; [done|]. simpl.
  rewrite <- !line_count_zero. repeat split; lia.
Qed.

(** **** The further properties on sample disks *)

Lemma missing_file_stops_run_witness :
  run TRAIN (start no_files)
  = (Raised (IOError (data_path +:+ train_file)),
     State no_files [SetEnv "TF_CPP_MIN_LOG_LEVEL" "3"])
  ∧ run TRAIN (start only_train_file)
    = (Raised (IOError (data_path +:+ valid_file)),
       State only_train_file [SetEnv "TF_CPP_MIN_LOG_LEVEL" "3"])
  ∧ run true (start no_vocab_file)
    = (Raised (IOError vocab_path),
       State no_vocab_file [SetEnv "TF_CPP_MIN_LOG_LEVEL" "3"]).
Proof.
  split; [|split].
  - apply (proj1 (missing_file_stops_run TRAIN no_files)). reflexivity.
  - apply (proj1 (proj2 (missing_file_stops_run TRAIN only_train_file)) "12 7 3");
      vm_compute; reflexivity.
  - apply (proj2 (proj2 (missing_file_stops_run true no_vocab_file)) "12 7 3" "");
      vm_compute; reflexivity.
Defined.

Lemma models_built_alike_witness :
  List.filter is_new_model (trace (run true (start sample_files)).2)
  = [NewRNNLM 3 2 5 20000 2 1 1 300 0.7%Q 0.0005%Q 5.0%Q;
     NewRNNLM 3 2 5 20000 2 1 1 300 0.7%Q 0.0005%Q 5.0%Q]%Z.
Proof.
  exact (models_built_alike true sample_files _ _ _ sample_data_files).
Defined.

Lemma sessions_do_not_overlap_witness :
  sessions_ok false (trace (run true (start sample_files)).2) = true.
Proof.
  exact (sessions_do_not_overlap true sample_files _ _ _ sample_data_files).
Defined.

Lemma size_zero_iff_empty_file_witness :
  ∃ g, (read_sizes (start empty_valid_file)).1 = Returned g
       ∧ num_valid_samples g = 0%Z.
Proof.
  destruct (size_zero_iff_empty_file empty_valid_file [] "12 7 3" "" "she")
    as (g & Hg & _ & Hv & _).
  - repeat split; vm_compute; reflexivity.
  - exists g. split; [exact Hg|]. by apply Hv.
Defined.

End SpellCheckerProofs.
